(** * Phishing-URL feature extraction: a shallow embedding of [script.py]

    The development follows the layout of the Python module: helper
    functions for feature extraction, the row builder [get_row], the
    dataset assembler [create_dataset] and the curation steps of [main].

    Python code that may raise is written in the error monad [res]
    ([inl e] is an exception in flight, [inr v] a returned value);
    [try: ... except Exception:] is [try_except].  The libraries the
    script calls (requests, bs4, urllib.parse, socket, ssl, whois,
    pandas' reading and sampling) are collaborators: the fields of the
    record [Collaborators], which the script takes as [w]; every call to
    them may raise.  Exceptions outside [Exception] (a keyboard
    interrupt) and what [main] prints or writes are not modelled. *)

From Stdlib Require Import String Ascii List ZArith QArith Lia Bool Arith Permutation.
From ExtLib Require Import Structures.Monad Structures.MonadExc Data.Monads.EitherMonad.
Import ListNotations.
Import MonadNotation.
Local Close Scope Q_scope.
Local Open Scope string_scope.
Local Open Scope nat_scope.
Local Open Scope monad_scope.

Set Implicit Arguments.

(** ** Python strings

    A [str] is modelled as a [string] whose characters are code points
    below 256. *)
Module Py.

(** [s.startswith(p)] *)
Definition startswith (s p : string) : bool := String.prefix p s.

(** [needle in hay] for two strings. *)
Fixpoint contains (needle hay : string) : bool :=
  String.prefix needle hay ||
  match hay with
  | EmptyString => false
  | String _ rest => contains needle rest
  end.

(** Truth value of a string: non-empty. *)
Definition truthy (s : string) : bool :=
  match s with EmptyString => false | String _ _ => true end.

(** [c.isspace()] for a code point below 256. *)
Definition isspace (c : ascii) : bool :=
  let n := nat_of_ascii c in
  ((9 <=? n) && (n <=? 13)) || ((28 <=? n) && (n <=? 32))
  || (n =? 133) || (n =? 160).

(** [s.split()]: the maximal runs of non-whitespace characters.
    [cur] is the run being read. *)
Fixpoint split_from (cur : option string) (s : string) : list string :=
  match s with
  | EmptyString => match cur with Some w => [w] | None => [] end
  | String c rest =>
      if isspace c then
        match cur with
        | Some w => w :: split_from None rest
        | None => split_from None rest
        end
      else
        match cur with
        | Some w => split_from (Some (w ++ String c EmptyString)) rest
        | None => split_from (Some (String c EmptyString)) rest
        end
  end.

Definition split (s : string) : list string := split_from None s.

(** [sep.join(parts)] *)
Definition join (sep : string) (parts : list string) : string :=
  String.concat sep parts.

(** [s.replace(c, '')] for a one-character [c]. *)
Fixpoint remove_char (c : ascii) (s : string) : string :=
  match s with
  | EmptyString => EmptyString
  | String d rest =>
      if Ascii.eqb c d then remove_char c rest
      else String d (remove_char c rest)
  end.

Definition isdigit_char (c : ascii) : bool :=
  let n := nat_of_ascii c in
  ((48 <=? n) && (n <=? 57)) || (n =? 178) || (n =? 179) || (n =? 185).

Fixpoint all_chars (p : ascii -> bool) (s : string) : bool :=
  match s with
  | EmptyString => true
  | String c rest => p c && all_chars p rest
  end.

(** [s.isdigit()]: at least one character and all of them digits. *)
Definition isdigit (s : string) : bool := truthy s && all_chars isdigit_char s.

Definition lower_char (c : ascii) : ascii :=
  let n := nat_of_ascii c in
  if ((65 <=? n) && (n <=? 90))
     || ((192 <=? n) && (n <=? 222) && negb (n =? 215))
  then ascii_of_nat (n + 32) else c.

(** [s.lower()] *)
Fixpoint lower (s : string) : string :=
  match s with
  | EmptyString => EmptyString
  | String c rest => String (lower_char c) (lower rest)
  end.

(** [s.find(c)] for a one-character [c]; [None] is Python's -1. *)
Fixpoint find (c : ascii) (s : string) : option nat :=
  match s with
  | EmptyString => None
  | String d rest =>
      if Ascii.eqb c d then Some 0
      else option_map S (find c rest)
  end.

(** [s.partition(c)]: text before the first [c], whether [c] was
    found, text after it. *)
Fixpoint partition (c : ascii) (s : string) : string * bool * string :=
  match s with
  | EmptyString => (EmptyString, false, EmptyString)
  | String d rest =>
      if Ascii.eqb c d then (EmptyString, true, rest)
      else let '(a, found, b) := partition c rest in
           if found then (String d a, true, b)
           else (String d a, false, EmptyString)
  end.

(** Third component of [s.rpartition(c)]: the text after the last [c],
    or all of [s] when [c] does not occur. *)
Fixpoint after_last (c : ascii) (s : string) : string :=
  match s with
  | EmptyString => EmptyString
  | String d rest =>
      if Ascii.eqb c d
      then match find c rest with
           | Some _ => after_last c rest
           | None => rest
           end
      else match find c rest with
           | Some _ => after_last c rest
           | None => s
           end
  end.

(** [s.lstrip(chars)] with the set of characters given as a test. *)
Fixpoint lstrip (p : ascii -> bool) (s : string) : string :=
  match s with
  | EmptyString => EmptyString
  | String c rest => if p c then lstrip p rest else s
  end.

(** [[c for c in s if not p(c)]], used for [replace] of several
    characters by the empty string. *)
Fixpoint remove_if (p : ascii -> bool) (s : string) : string :=
  match s with
  | EmptyString => EmptyString
  | String c rest =>
      if p c then remove_if p rest else String c (remove_if p rest)
  end.

End Py.

(** ** Exceptions and results *)

(** The exception classes the script can meet; all are subclasses of
    [Exception].  [Timeout] is [requests.exceptions.Timeout], itself a
    subclass of [requests.exceptions.RequestException]; the constructor
    [RequestException] stands for every other request-level error. *)
Inductive exn : Type :=
| Timeout (msg : string)
| RequestException (msg : string)
| UnboundLocalError
| ZeroDivisionError
| KeyError
| IndexError
| TypeError
| ValueError
| OSError
| OtherException (cls msg : string).

Definition is_Timeout (e : exn) : bool :=
  match e with Timeout _ => true | _ => false end.

Definition is_RequestException (e : exn) : bool :=
  match e with Timeout _ | RequestException _ => true | _ => false end.

(** [str(e)], for the request errors whose text the script prints. *)
Definition str_exn (e : exn) : string :=
  match e with
  | Timeout m | RequestException m | OtherException _ m => m
  | _ => ""
  end.

Definition res : Type -> Type := sum exn.

(** [try: body except Exception: handler] *)
Definition try_except {A} (body : res A) (handler : res A) : res A :=
  catch body (fun _ => handler).

(** ** Python values stored in a row *)

Inductive value : Type :=
| VNone
| VInt (n : Z)
| VFloat (q : Q)          (* the quotient, before rounding to a double *)
| VStr (s : string)
| VObj (repr : string).   (* any other object, e.g. a datetime or a list *)

(** The failure marker of the script: the string ['Error']. *)
Definition Error : value := VStr "Error".

(** ** The parsed document (bs4)

    A [BeautifulSoup] object is the tree of the page: elements with a
    name, an attribute dictionary and children, text strings, and the
    strings [get_text] leaves out (comments and the like). *)
Module Bs4.

#[local] Set Warnings "-register-all".

Inductive Node : Type :=
| Element (name : string) (attrs : list (string * string)) (children : list Node)
| Text (s : string)
| Comment (s : string).

Definition Soup : Type := list Node.

(** A [Tag] as the script sees it: its name and its attributes. *)
Record Tag : Type := mkTag { tag_name : string; tag_attrs : list (string * string) }.

(** Elements below a node, the node included, in document order. *)
Fixpoint tags_of (n : Node) : list Tag :=
  match n with
  | Element nm ats cs => mkTag nm ats :: flat_map tags_of cs
  | Text _ | Comment _ => []
  end.

(** Text strings below a node, in document order. *)
Fixpoint strings_of (n : Node) : list string :=
  match n with
  | Element _ _ cs => flat_map strings_of cs
  | Text s => [s]
  | Comment _ => []
  end.

(** [tag.get(key)]: [None] when the attribute is absent. *)
Fixpoint lookup (key : string) (ats : list (string * string)) : option string :=
  match ats with
  | [] => None
  | (k, v) :: rest => if String.eqb k key then Some v else lookup key rest
  end.

Definition get (t : Tag) (key : string) : option string :=
  lookup key (tag_attrs t).

(** [tag.get(key, default)] *)
Definition get_default (t : Tag) (key default : string) : string :=
  match get t key with Some v => v | None => default end.

(** [tag[key]]: raises [KeyError] when the attribute is absent. *)
Definition getitem (t : Tag) (key : string) : res string :=
  match get t key with Some v => ret v | None => raise KeyError end.

(** [soup.find_all(name)] *)
Definition find_all (name : string) (soup : Soup) : list Tag :=
  filter (fun t => String.eqb (tag_name t) name) (flat_map tags_of soup).

(** [soup.find_all(name, key=True)]: the elements that carry the
    attribute. *)
Definition find_all_with (name key : string) (soup : Soup) : list Tag :=
  filter (fun t => match get t key with Some _ => true | None => false end)
         (find_all name soup).

(** [soup.get_text(separator=sep)] *)
Definition get_text (sep : string) (soup : Soup) : string :=
  Py.join sep (flat_map strings_of soup).

End Bs4.

(** ** URL splitting (urllib.parse)

    Of a [ParseResult] the script reads [scheme], [netloc] and the
    derived property [hostname]. *)
Module Urllib.

Record ParseResult : Type := mkParseResult { scheme : string; netloc : string }.

(** The [hostname] property: the part of [netloc] after the last ['@'],
    cut at the port, or taken between brackets; lower-cased up to a
    ['%'] zone; [None] when empty. *)
Definition hostname (p : ParseResult) : option string :=
  let hostinfo := Py.after_last "@" (netloc p) in
  let '(_, have_open_br, bracketed) := Py.partition "[" hostinfo in
  let host :=
    if have_open_br then fst (fst (Py.partition "]" bracketed))
    else fst (fst (Py.partition ":" hostinfo)) in
  if Py.truthy host then
    let '(h, percent, zone) := Py.partition "%" host in
    Some (Py.lower h ++ (if percent then "%" else "") ++ zone)
  else None.

(** *** A reference model of [urlparse]

    Scheme and network location as CPython's [urlsplit] computes them
    (3.11 and later).  The checks [urlsplit] delegates to [ipaddress]
    and [unicodedata] (a bracketed host, a non-ASCII network location)
    are the argument [netloc_ok]. *)

Definition is_c0_or_space (c : ascii) : bool := nat_of_ascii c <=? 32.

Definition is_tab_cr_lf (c : ascii) : bool :=
  let n := nat_of_ascii c in (n =? 9) || (n =? 10) || (n =? 13).

Definition is_ascii_alpha (c : ascii) : bool :=
  let n := nat_of_ascii c in
  ((65 <=? n) && (n <=? 90)) || ((97 <=? n) && (n <=? 122)).

(** [scheme_chars]: letters, digits and [+-.] *)
Definition is_scheme_char (c : ascii) : bool :=
  let n := nat_of_ascii c in
  is_ascii_alpha c || ((48 <=? n) && (n <=? 57))
  || (n =? 43) || (n =? 45) || (n =? 46).

Definition is_netloc_delim (c : ascii) : bool :=
  let n := nat_of_ascii c in (n =? 47) || (n =? 63) || (n =? 35).

(** [url[:n]] and [url[n:]] *)
Definition take (n : nat) (s : string) : string := String.substring 0 n s.
Definition drop (n : nat) (s : string) : string :=
  String.substring n (String.length s - n) s.

(** The scheme, if any, and the rest of the URL. *)
Definition split_scheme (url : string) : string * string :=
  match Py.find ":" url with
  | Some (S i') =>
      let i := S i' in
      match url with
      | String c0 _ =>
          if is_ascii_alpha c0 && Py.all_chars is_scheme_char (take i url)
          then (Py.lower (take i url), drop (S i) url)
          else (EmptyString, url)
      | EmptyString => (EmptyString, url)
      end
  | _ => (EmptyString, url)
  end.

(** [_splitnetloc(url, 2)]: up to the first of [/?#]. *)
Fixpoint until_delim (s : string) : string :=
  match s with
  | EmptyString => EmptyString
  | String c rest => if is_netloc_delim c then EmptyString else String c (until_delim rest)
  end.

Definition has_char (c : ascii) (s : string) : bool :=
  match Py.find c s with Some _ => true | None => false end.

Definition is_ascii_str (s : string) : bool :=
  Py.all_chars (fun c => nat_of_ascii c <? 128) s.

Definition urlparse_model (netloc_ok : string -> bool) (url : string) : res ParseResult :=
  let url := Py.lstrip is_c0_or_space url in
  let url := Py.remove_if is_tab_cr_lf url in
  let '(sch, url) := split_scheme url in
  nl <- (if Py.startswith url "//" then
           let nl := until_delim (drop 2 url) in
           if xorb (has_char "[" nl) (has_char "]" nl) then raise ValueError
           else if has_char "[" nl && negb (netloc_ok nl) then raise ValueError
           else ret nl
         else ret EmptyString) ;;
  if Py.truthy nl && negb (is_ascii_str nl) && negb (netloc_ok nl)
  then raise ValueError
  else ret (mkParseResult sch nl).

End Urllib.

(** ** Control flow and containers *)

(** [for x in xs: body], threading the local variables [s]; an
    exception leaves the loop. *)
Fixpoint for_in {A S : Type} (body : A -> S -> res S) (xs : list A) (s : S) : res S :=
  match xs with
  | [] => ret s
  | x :: rest => s' <- body x s ;; for_in body rest s'
  end.

(** [xs[i]] on a tuple or list: [IndexError] out of range. *)
Definition subscript {A} (xs : list A) (i : nat) : res A :=
  match nth_error xs i with Some x => ret x | None => raise IndexError end.

(** [d[key]] on a dictionary: [KeyError] when the key is missing. *)
Fixpoint dict_getitem {A} (d : list (string * A)) (key : string) : res A :=
  match d with
  | [] => raise KeyError
  | (k, v) :: rest => if String.eqb k key then ret v else dict_getitem rest key
  end.

(** Reading a local variable that may not have been assigned yet. *)
Definition read_local {A} (x : option A) : res A :=
  match x with Some v => ret v | None => raise UnboundLocalError end.

(** [a / b] on integers. *)
Definition truediv (a b : nat) : res Q :=
  match b with
  | O => raise ZeroDivisionError
  | S _ => ret (Z.of_nat a # Pos.of_nat b)%Q
  end.

(** ** What the collaborators hand back *)

(** The dictionary of [SSLSocket.getpeercert()]: [issuer] is a tuple of
    relative distinguished names, each a tuple of (key, value) pairs.  A
    key that is missing is [None]. *)
Record PeerCert : Type := mkPeerCert {
  cert_issuer : option (list (list (string * string)));
  cert_notBefore : option string;
  cert_notAfter : option string
}.

(** [requests.Response], of which the script reads [content]. *)
Record Response : Type := mkResponse { content : string }.

(** The network, the parsers and the random generator the script calls.
    Every call may raise. *)
Record Collaborators : Type := mkCollaborators {
  urlparse : string -> res Urllib.ParseResult;
  requests_get : string -> Z -> res Response;          (* url, timeout *)
  BeautifulSoup : string -> string -> res Bs4.Soup;    (* markup, parser *)
  gethostbyname : string -> res string;
  SSLContext : Type;
  Socket : Type;
  SSLSocket : Type;
  create_default_context : res SSLContext;
  create_connection : string -> Z -> res Socket;       (* host, port *)
  wrap_socket : SSLContext -> Socket -> string -> res SSLSocket;
  getpeercert : SSLSocket -> res (option PeerCert);
  whois : string -> res (list (string * value));
  read_csv : string -> res (list (string * string));   (* rows (url, type) *)
  sample : forall A : Type, list A -> list A           (* frac=1, random_state=0 *)
}.

(** ** Helper functions for feature extraction *)

(** The local counters of [extract_link_features]. *)
Record LinkCounts : Type := mkLinkCounts {
  external_count : nat;
  internal_count : nat;
  ip_based_count : nat;
  https_count : nat;
  http_count : nat;
  non_count : nat
}.

(** The local counters of [extract_iframes]. *)
Record IframeCounts : Type := mkIframeCounts {
  external_iframes_count : nat;
  hidden_iframes_count : nat
}.

Definition incr_external (c : LinkCounts) : LinkCounts :=
  mkLinkCounts (external_count c + 1) (internal_count c) (ip_based_count c)
               (https_count c) (http_count c) (non_count c).
Definition incr_internal (c : LinkCounts) : LinkCounts :=
  mkLinkCounts (external_count c) (internal_count c + 1) (ip_based_count c)
               (https_count c) (http_count c) (non_count c).
Definition incr_ip_based (c : LinkCounts) : LinkCounts :=
  mkLinkCounts (external_count c) (internal_count c) (ip_based_count c + 1)
               (https_count c) (http_count c) (non_count c).
Definition incr_https (c : LinkCounts) : LinkCounts :=
  mkLinkCounts (external_count c) (internal_count c) (ip_based_count c)
               (https_count c + 1) (http_count c) (non_count c).
Definition incr_http (c : LinkCounts) : LinkCounts :=
  mkLinkCounts (external_count c) (internal_count c) (ip_based_count c)
               (https_count c) (http_count c + 1) (non_count c).
Definition incr_non (c : LinkCounts) : LinkCounts :=
  mkLinkCounts (external_count c) (internal_count c) (ip_based_count c)
               (https_count c) (http_count c) (non_count c + 1).

Definition incr_external_iframes (c : IframeCounts) : IframeCounts :=
  mkIframeCounts (external_iframes_count c + 1) (hidden_iframes_count c).
Definition incr_hidden_iframes (c : IframeCounts) : IframeCounts :=
  mkIframeCounts (external_iframes_count c) (hidden_iframes_count c + 1).

(** [tag.get(key) == v] *)
Definition attr_is (t : Bs4.Tag) (key v : string) : bool :=
  match Bs4.get t key with Some x => String.eqb x v | None => false end.

Definition VCount (n : nat) : value := VInt (Z.of_nat n).

(** The placeholder [extract_iframes] compares every [src] with. *)
Definition self_domain : string := "your-website-domain.com".

(** One row of the dataset: the dictionary [get_row] builds. *)
Record Row : Type := mkRow {
  URL : string;
  Domain : string;
  IP_Address : value;
  Link_Density : value;
  External_Links_Count : value;
  Internal_Links_Count : value;
  External_IP_Count : value;
  HTTP_Count : value;
  HTTPS_Count : value;
  Non_Count : value;
  External_Iframes_Count : value;
  Hidden_Iframes_Count : value;
  Country : value;
  Organization : value;
  Certificate : value;
  Certificate_Not_Before : value;
  Certificate_Not_After : value;
  If_HTTPS : value;
  Whois_country : value;
  whois_creation_date_ : value;
  whois_expiration_date_ : value
}.

Section Script.

Variable w : Collaborators.

Definition extract_link_density (soup : Bs4.Soup) : res value :=
  try_except
    (let link_count := length (Bs4.find_all "a" soup) in
     let text := Bs4.get_text " " soup in
     let word_count := length (Py.split text) in
     if 0 <? word_count
     then q <- truediv link_count word_count ;; ret (VFloat q)
     else ret (VInt 0))
    (ret Error).

(** [[a['href'] for a in soup.find_all('a', href=True)]] *)
Fixpoint hrefs_of (anchors : list Bs4.Tag) : res (list string) :=
  match anchors with
  | [] => ret []
  | a :: rest =>
      h <- Bs4.getitem a "href" ;;
      hs <- hrefs_of rest ;;
      ret (h :: hs)
  end.

(** One turn of the loop over [links]. *)
Definition link_step (domain link : string) (c : LinkCounts) : res LinkCounts :=
  parsed_url <- urlparse w link ;;
  let nl := Urllib.netloc parsed_url in
  let c := if Py.truthy nl && negb (Py.contains domain nl)
           then incr_external c else c in
  let c := if Py.truthy nl && Py.contains domain nl
           then incr_internal c else c in
  let c := if match Urllib.hostname parsed_url with
              | Some h => Py.isdigit (Py.remove_char "." h)
              | None => false
              end
           then incr_ip_based c else c in
  ret (if String.eqb (Urllib.scheme parsed_url) "https" then incr_https c
       else if String.eqb (Urllib.scheme parsed_url) "http" then incr_http c
       else incr_non c).

Definition link_counts_values (c : LinkCounts)
  : value * value * value * value * value * value :=
  (VCount (external_count c), VCount (internal_count c),
   VCount (ip_based_count c), VCount (https_count c),
   VCount (http_count c), VCount (non_count c)).

Definition extract_link_features (soup : Bs4.Soup) (domain : string)
  : res (value * value * value * value * value * value) :=
  try_except
    (links <- hrefs_of (Bs4.find_all_with "a" "href" soup) ;;
     c <- for_in (link_step domain) links (mkLinkCounts 0 0 0 0 0 0) ;;
     ret (link_counts_values c))
    (ret (Error, Error, Error, Error, Error, Error)).

Definition extract_ip_address (domain : string) : res value :=
  try_except
    (ip_address <- gethostbyname w domain ;; ret (VStr ip_address))
    (ret Error).

(** One turn of the loop over the iframes. *)
Definition iframe_step (iframe : Bs4.Tag) (c : IframeCounts) : res IframeCounts :=
  let src := Bs4.get_default iframe "src" "" in
  parsed <- urlparse w src ;;
  let c := if Py.truthy (Urllib.netloc parsed)
              && negb (Py.contains self_domain src)
           then incr_external_iframes c else c in
  let c := if attr_is iframe "width" "0" || attr_is iframe "height" "0"
           then incr_hidden_iframes c else c in
  ret c.

Definition extract_iframes (soup : Bs4.Soup) : res (value * value) :=
  try_except
    (c <- for_in iframe_step (Bs4.find_all "iframe" soup) (mkIframeCounts 0 0) ;;
     ret (VCount (external_iframes_count c), VCount (hidden_iframes_count c)))
    (ret (Error, Error)).

(** [certificate[key]] on what [getpeercert()] returned. *)
Definition cert_getitem {A} (certificate : option PeerCert)
    (field : PeerCert -> option A) : res A :=
  match certificate with
  | None => raise TypeError
  | Some c => match field c with Some v => ret v | None => raise KeyError end
  end.

(** [certificate['issuer'][i][0][1]] *)
Definition issuer_field (certificate : option PeerCert) (i : nat) : res string :=
  issuer <- cert_getitem certificate cert_issuer ;;
  rdn <- subscript issuer i ;;
  pair <- subscript rdn 0 ;;
  ret (snd pair).

Definition extract_certificate (domain : string)
  : res (value * value * value * value * value) :=
  try_except
    (context <- create_default_context w ;;
     sock <- create_connection w domain 443 ;;
     ssock <- wrap_socket w context sock domain ;;
     certificate <- getpeercert w ssock ;;
     country <- issuer_field certificate 0 ;;
     org <- issuer_field certificate 1 ;;
     certificatee <- issuer_field certificate 2 ;;
     notBefore <- cert_getitem certificate cert_notBefore ;;
     notAfter <- cert_getitem certificate cert_notAfter ;;
     ret (VStr country, VStr org, VStr certificatee, VStr notBefore, VStr notAfter))
    (ret (Error, Error, Error, Error, Error)).

Definition extract_if_https (url : string) : res value :=
  try_except
    (let response :=
       if Py.startswith url "https" || Py.startswith url "http" then 1%Z else 0%Z in
     ret (VInt response))
    (ret Error).

Definition extract_whois (domain : string) : res (value * value * value) :=
  try_except
    (whois_info <- whois w domain ;;
     whois_country <- dict_getitem whois_info "country" ;;
     whois_creation_date <- dict_getitem whois_info "creation_date" ;;
     whois_expiration_date <- dict_getitem whois_info "expiration_date" ;;
     ret (whois_country, whois_creation_date, whois_expiration_date))
    (ret (Error, Error, Error)).

(** ** Dataset creation functions *)

Definition get_row (url http_url : string) : res Row :=
  page <- requests_get w http_url 120 ;;
  soup <- BeautifulSoup w (content page) "html.parser" ;;
  parsed_url <- urlparse w http_url ;;
  let domain := Urllib.netloc parsed_url in
  ip_address <- extract_ip_address domain ;;
  link_density <- extract_link_density soup ;;
  lf <- extract_link_features soup domain ;;
  let '(external_links_count, internal_links_count, external_ip_count,
        https_count, http_count, non_count) := lf in
  fr <- extract_iframes soup ;;
  let '(external_iframes_count, hidden_iframes_count) := fr in
  ce <- extract_certificate domain ;;
  let '(country, org, certificate, notBefore, notAfter) := ce in
  if_https <- extract_if_https url ;;
  wh <- extract_whois domain ;;
  let '(whois_country, whois_creation_date, whois_expiration_date) := wh in
  ret {| URL := url;
         Domain := domain;
         IP_Address := ip_address;
         Link_Density := link_density;
         External_Links_Count := external_links_count;
         Internal_Links_Count := internal_links_count;
         External_IP_Count := external_ip_count;
         HTTP_Count := http_count;
         HTTPS_Count := https_count;
         Non_Count := non_count;
         External_Iframes_Count := external_iframes_count;
         Hidden_Iframes_Count := hidden_iframes_count;
         Country := country;
         Organization := org;
         Certificate := certificate;
         Certificate_Not_Before := notBefore;
         Certificate_Not_After := notAfter;
         If_HTTPS := if_https;
         Whois_country := whois_country;
         whois_creation_date_ := whois_creation_date;
         whois_expiration_date_ := whois_expiration_date |}.

(** Lines 288 and 289: [http_url] is assigned only when the URL has no
    scheme; otherwise the local keeps what it held. *)
Definition assign_http_url (url : string) (http_url : option string)
  : res (option string) :=
  parsed <- urlparse w url ;;
  ret (if negb (Py.truthy (Urllib.scheme parsed))
       then Some ("http://" ++ url) else http_url).

(** The loop of [create_dataset], for any row builder: the table so
    far, the local [http_url] (unassigned before the first URL
    without a scheme) and the text of each call of [print], one entry
    per call, in order. *)
Section Assembler.

Variable R : Type.
Variable row_builder : string -> string -> res R.

Record Locals : Type := mkLocals {
  df : list R;
  http_url : option string;
  stdout : list string
}.

Definition dataset_step (url : string) (st : Locals) : res Locals :=
  http_url' <- assign_http_url url (http_url st) ;;
  match (target <- read_local http_url' ;; row_builder url target) with
  | inr row =>
      ret (mkLocals (df st ++ [row]) http_url'
                    (stdout st ++ ["Successfully Added:  " ++ url]))
  | inl e =>
      if is_Timeout e then
        ret (mkLocals (df st) http_url'
               (stdout st ++ ["Timeout: " ++ url ++ " took too long to respond."]))
      else if is_RequestException e then
        ret (mkLocals (df st) http_url'
               (stdout st ++ ["Failed to fetch " ++ url ++ ": " ++ str_exn e]))
      else raise e
  end.

Definition dataset_loop (urls : list string) (st : Locals) : res Locals :=
  for_in dataset_step urls st.

Definition create_dataset_with (urls : list string) : res (list R) :=
  st <- dataset_loop urls (mkLocals [] None []) ;;
  ret (df st).

End Assembler.

Definition create_dataset (urls : list string) : res (list Row) :=
  create_dataset_with get_row urls.

(** ** Main execution *)

(** [pd.merge(left, right, on='URL', how='left')]: every row of
    [left], in order, once per row of [right] with the same URL, or
    once with a missing [type] when there is none.  A [left] without
    rows is the empty [DataFrame()], which has no URL column. *)
Definition merge_left (left : list Row) (right : list (string * string))
  : res (list (Row * option string)) :=
  match left with
  | [] => raise KeyError
  | _ =>
      ret (flat_map
             (fun r =>
                match filter (fun l => String.eqb (fst l) (URL r)) right with
                | [] => [(r, None)]
                | ms => map (fun l => (r, Some (snd l))) ms
                end)
             left)
  end.

(** [series.unique()]: first occurrences, in order. *)
Fixpoint unique_from (seen : list string) (xs : list string) : list string :=
  match xs with
  | [] => []
  | x :: rest =>
      if existsb (String.eqb x) seen then unique_from seen rest
      else x :: unique_from (x :: seen) rest
  end.

Definition unique (xs : list string) : list string := unique_from [] xs.

(** Lines 326 to 333 of [main]: from the two feature tables and the
    two label tables to the table that is written. *)
Definition curate (phishing_data benign_data : list Row)
    (df_phishing df_benign : list (string * string))
  : res (list (Row * option string)) :=
  phishing_data <- merge_left phishing_data df_phishing ;;
  benign_data <- merge_left benign_data df_benign ;;
  let phishing_data := firstn 400 phishing_data in
  let phishing_data := firstn 400 phishing_data in
  let final_df := (phishing_data ++ benign_data)%list in
  let final_df := sample w final_df in
  ret final_df.

Definition main : res (list (Row * option string)) :=
  mal_urls <- read_csv w "malicious_phish.csv" ;;
  let df_phishing := filter (fun r => String.eqb (snd r) "phishing") mal_urls in
  let df_benign := filter (fun r => String.eqb (snd r) "benign") mal_urls in
  let phish_urls := unique (map fst (firstn 2000 df_phishing)) in
  let benign_urls := unique (map fst (firstn 1000 df_benign)) in
  phishing_data <- create_dataset phish_urls ;;
  benign_data <- create_dataset benign_urls ;;
  curate phishing_data benign_data df_phishing df_benign.

End Script.

(** ** What the counters are compared with

    The sets of anchors and iframes the specification speaks of, as
    tests on one element; the loops above are compared with the number
    of elements that pass them. *)

(** The [href] of every anchor that has one, in document order. *)
Definition href_values (soup : Bs4.Soup) : list string :=
  map (fun a => Bs4.get_default a "href" "") (Bs4.find_all_with "a" "href" soup).

(** The link parses and has a network location. *)
Definition has_netloc (w : Collaborators) (link : string) : bool :=
  match urlparse w link with
  | inr p => Py.truthy (Urllib.netloc p)
  | inl _ => false
  end.

(** The link has a network location that contains [domain]. *)
Definition is_internal_link (w : Collaborators) (domain link : string) : bool :=
  match urlparse w link with
  | inr p => Py.truthy (Urllib.netloc p) && Py.contains domain (Urllib.netloc p)
  | inl _ => false
  end.

(** The link has a network location that does not contain [domain]. *)
Definition is_external_link (w : Collaborators) (domain link : string) : bool :=
  match urlparse w link with
  | inr p => Py.truthy (Urllib.netloc p) && negb (Py.contains domain (Urllib.netloc p))
  | inl _ => false
  end.

(** The [src] of the iframe has a network location and does not contain
    the self-domain placeholder. *)
Definition is_external_iframe (w : Collaborators) (iframe : Bs4.Tag) : bool :=
  let src := Bs4.get_default iframe "src" "" in
  has_netloc w src && negb (Py.contains self_domain src).

(** The declared width or height of the iframe is the string ["0"]. *)
Definition is_hidden_iframe (iframe : Bs4.Tag) : bool :=
  attr_is iframe "width" "0" || attr_is iframe "height" "0".

Definition count {A} (p : A -> bool) (xs : list A) : nat := length (filter p xs).

(** ** Concrete collaborators and documents

    A network that can be run: URLs are split by the reference model,
    the page fetch and the HTML parser are supplied, name resolution,
    the TLS connection and WHOIS all fail, and sampling reverses the
    table (one permutation among others). *)
Module Offline.

Definition split_url : string -> res Urllib.ParseResult :=
  Urllib.urlparse_model (fun _ => true).

Definition world (fetch : string -> Z -> res Response)
    (parse : string -> string -> res Bs4.Soup) : Collaborators :=
  {| urlparse := split_url;
     requests_get := fetch;
     BeautifulSoup := parse;
     gethostbyname := fun _ => raise OSError;
     SSLContext := unit;
     Socket := unit;
     SSLSocket := unit;
     create_default_context := ret tt;
     create_connection := fun _ _ => raise OSError;
     wrap_socket := fun _ _ _ => raise OSError;
     getpeercert := fun _ => ret None;
     whois := fun _ => raise (OtherException "PywhoisError" "no match");
     read_csv := fun _ => raise OSError;
     sample := fun A l => rev l |}.

(** [<p>hello world</p>] *)
Definition hello_page : Bs4.Soup :=
  [Bs4.Element "p" [] [Bs4.Text "hello world"]].

(** A document without text: [<a href="/x"></a>]. *)
Definition wordless_page : Bs4.Soup :=
  [Bs4.Element "a" [("href", "/x")] []].

(** [<a href="https://other.com/x">a b c</a><a name="top">d</a>
     <a href="/rel">e</a><a href="http://site.com/">f</a>] *)
Definition links_page : Bs4.Soup :=
  [Bs4.Element "body" []
     [Bs4.Element "a" [("href", "https://other.com/x")] [Bs4.Text "a b c"];
      Bs4.Element "a" [("name", "top")] [Bs4.Text "d"];
      Bs4.Element "a" [("href", "/rel")] [Bs4.Text "e"];
      Bs4.Element "a" [("href", "http://site.com/")] [Bs4.Text "f"]]].

(** [<iframe src="//ads.example.net" width="0">] *)
Definition ad_iframe_page : Bs4.Soup :=
  [Bs4.Element "iframe" [("src", "//ads.example.net"); ("width", "0")] []].

(** Four iframes: external and hidden, external only, hidden only
    (by height), neither (sized ["0px"], relative [src]). *)
Definition iframes_page : Bs4.Soup :=
  [Bs4.Element "iframe" [("src", "//ads.example.net"); ("width", "0")] [];
   Bs4.Element "iframe" [("src", "https://cdn.example.org/w"); ("width", "300")] [];
   Bs4.Element "iframe" [("src", "/local"); ("height", "0")] [];
   Bs4.Element "iframe" [("src", "/frame"); ("width", "0px")] []].

(** Every host answers with the same page, except those under [.test],
    which cannot be reached. *)
Definition fetch (url : string) (timeout : Z) : res Response :=
  if Py.contains ".test" url
  then raise (RequestException "Max retries exceeded")
  else ret (mkResponse "<p>hello world</p>").

Definition parse (markup parser : string) : res Bs4.Soup := ret hello_page.

Definition net : Collaborators := world fetch parse.

(** A host that accepts the connection and the handshake and presents
    [certificate]. *)
Definition tls_world (certificate : option PeerCert) : Collaborators :=
  {| urlparse := split_url;
     requests_get := fetch;
     BeautifulSoup := parse;
     gethostbyname := fun _ => ret "93.184.216.34";
     SSLContext := unit;
     Socket := unit;
     SSLSocket := unit;
     create_default_context := ret tt;
     create_connection := fun _ _ => ret tt;
     wrap_socket := fun _ _ _ => ret tt;
     getpeercert := fun _ => ret certificate;
     whois := fun _ => ret [("country", VStr "US"); ("creation_date", VNone);
                            ("expiration_date", VObj "datetime(2030, 1, 1)")];
     read_csv := fun _ => raise OSError;
     sample := fun A l => rev l |}.

Definition full_certificate : PeerCert :=
  {| cert_issuer := Some [[("countryName", "US")];
                          [("organizationName", "Example Trust")];
                          [("commonName", "Example CA 1")]];
     cert_notBefore := Some "Jan  1 00:00:00 2026 GMT";
     cert_notAfter := Some "Apr  1 00:00:00 2026 GMT" |}.

(** An issuer of two entries only: the third subscript is out of range. *)
Definition short_issuer_certificate : PeerCert :=
  {| cert_issuer := Some [[("organizationName", "Example Trust")];
                          [("commonName", "Example CA 1")]];
     cert_notBefore := Some "Jan  1 00:00:00 2026 GMT";
     cert_notAfter := Some "Apr  1 00:00:00 2026 GMT" |}.

(** Issuer complete, [notAfter] missing. *)
Definition undated_certificate : PeerCert :=
  {| cert_issuer := cert_issuer full_certificate;
     cert_notBefore := Some "Jan  1 00:00:00 2026 GMT";
     cert_notAfter := None |}.

(** [<a href="https://other.com/x">] *)
Definition one_anchor_page : Bs4.Soup :=
  [Bs4.Element "a" [("href", "https://other.com/x")] []].

(** The second [href] has an unbalanced bracket: [urlsplit] raises
    [ValueError] on it. *)
Definition bad_href_page : Bs4.Soup :=
  [Bs4.Element "a" [("href", "https://other.com/x")] [];
   Bs4.Element "a" [("href", "http://[::1/")] []].

(** A feature row for [url], every feature failed. *)
Definition blank_row (url : string) : Row :=
  mkRow url url Error Error Error Error Error Error Error Error Error Error
        Error Error Error Error Error Error Error Error Error.

Fixpoint tally (n : nat) : string :=
  match n with O => EmptyString | S k => String "x" (tally k) end.

(** [n] distinct URLs. *)
Definition numbered_urls (n : nat) : list string :=
  map (fun i => "site" ++ tally i ++ ".example") (seq 0 n).

End Offline.

(** ** Further notions for the properties of the whole script *)

(** [l1] is [l2] with some elements left out, the order kept. *)
Inductive Subsequence {A : Type} : list A -> list A -> Prop :=
| Subsequence_nil : Subsequence [] []
| Subsequence_skip (x : A) (l1 l2 : list A) :
    Subsequence l1 l2 -> Subsequence l1 (x :: l2)
| Subsequence_keep (x : A) (l1 l2 : list A) :
    Subsequence l1 l2 -> Subsequence (x :: l1) (x :: l2).

(** The same collaborators with another name resolver. *)
Definition with_resolver (w : Collaborators) (resolve : string -> res string)
  : Collaborators :=
  {| urlparse := urlparse w;
     requests_get := requests_get w;
     BeautifulSoup := BeautifulSoup w;
     gethostbyname := resolve;
     SSLContext := SSLContext w;
     Socket := Socket w;
     SSLSocket := SSLSocket w;
     create_default_context := create_default_context w;
     create_connection := create_connection w;
     wrap_socket := wrap_socket w;
     getpeercert := getpeercert w;
     whois := whois w;
     read_csv := read_csv w;
     sample := @sample w |}.

(** The row with another value under ["IP Address"]. *)
Definition set_IP_Address (row : Row) (v : value) : Row :=
  mkRow (URL row) (Domain row) v (Link_Density row)
        (External_Links_Count row) (Internal_Links_Count row)
        (External_IP_Count row) (HTTP_Count row) (HTTPS_Count row)
        (Non_Count row) (External_Iframes_Count row) (Hidden_Iframes_Count row)
        (Country row) (Organization row) (Certificate row)
        (Certificate_Not_Before row) (Certificate_Not_After row)
        (If_HTTPS row) (Whois_country row) (whois_creation_date_ row)
        (whois_expiration_date_ row).

(** The URL splits and has no scheme. *)
Definition no_scheme (w : Collaborators) (url : string) : bool :=
  match urlparse w url with
  | inr p => negb (Py.truthy (Urllib.scheme p))
  | inl _ => false
  end.

(** The rows a row builder gives for the URLs it can build, each asked
    for at ["http://"] followed by the URL. *)
Definition rows_built {R : Type} (row_builder : string -> string -> res R)
    (urls : list string) : list R :=
  flat_map (fun url => match row_builder url ("http://" ++ url) with
                       | inr row => [row]
                       | inl _ => []
                       end) urls.

(** The link parses and its host name, dots removed, is made of digits. *)
Definition is_ip_based_link (w : Collaborators) (link : string) : bool :=
  match urlparse w link with
  | inr p => match Urllib.hostname p with
             | Some h => Py.isdigit (Py.remove_char "." h)
             | None => false
             end
  | inl _ => false
  end.

(** The row carries the label ["phishing"]. *)
Definition labelled_phishing (r : Row * option string) : bool :=
  match snd r with Some t => String.eqb t "phishing" | None => false end.

(** More collaborators and documents to run the script on. *)
Module Scenario.

(** The registry answers [answer]; the rest as [Offline.net]. *)
Definition whois_world (answer : res (list (string * value))) : Collaborators :=
  {| urlparse := Offline.split_url;
     requests_get := Offline.fetch;
     BeautifulSoup := Offline.parse;
     gethostbyname := fun _ => raise OSError;
     SSLContext := unit;
     Socket := unit;
     SSLSocket := unit;
     create_default_context := ret tt;
     create_connection := fun _ _ => raise OSError;
     wrap_socket := fun _ _ _ => raise OSError;
     getpeercert := fun _ => ret None;
     whois := fun _ => answer;
     read_csv := fun _ => raise OSError;
     sample := fun A l => rev l |}.

(** The labelled source file holds [table]; the rest as [Offline.net]. *)
Definition csv_world (table : list (string * string)) : Collaborators :=
  {| urlparse := Offline.split_url;
     requests_get := Offline.fetch;
     BeautifulSoup := Offline.parse;
     gethostbyname := fun _ => raise OSError;
     SSLContext := unit;
     Socket := unit;
     SSLSocket := unit;
     create_default_context := ret tt;
     create_connection := fun _ _ => raise OSError;
     wrap_socket := fun _ _ _ => raise OSError;
     getpeercert := fun _ => ret None;
     whois := fun _ => raise (OtherException "PywhoisError" "no match");
     read_csv := fun _ => ret table;
     sample := fun A l => rev l |}.

(** Markup [html.parser] rejects: a marked section that opens with a
    blank where its name is expected.  bs4 turns the parser's error into
    [ParserRejectedMarkup]. *)
Definition rejected_markup : string := "<p>sale</p><![ endif]>".

(** The parser rejects [rejected_markup] and parses everything else as
    [Offline.parse] does. *)
Definition strict_parse (markup parser : string) : res Bs4.Soup :=
  if String.eqb markup rejected_markup
  then raise (OtherException "ParserRejectedMarkup" "expected name token")
  else Offline.parse markup parser.

(** The host [broken.example] serves [rejected_markup]; the others
    answer as in [Offline.fetch]. *)
Definition fetch_with_broken_page (url : string) (timeout : Z) : res Response :=
  if Py.contains "broken.example" url
  then ret (mkResponse rejected_markup)
  else Offline.fetch url timeout.

Definition strict_net : Collaborators :=
  Offline.world fetch_with_broken_page strict_parse.

(** A hidden iframe, then one whose [src] has an unbalanced bracket. *)
Definition bad_src_iframes_page : Bs4.Soup :=
  [Bs4.Element "iframe" [("src", "//ads.example.net"); ("width", "0")] [];
   Bs4.Element "iframe" [("src", "http://[::1/")] []].

Definition small_table : list (string * string) :=
  [("login.example", "phishing"); ("news.example", "benign");
   ("gone.test", "phishing"); ("news.example", "benign");
   ("shop.example", "benign"); ("paste.example", "defacement")].

(** An issuer whose three entries are organisation, unit and name. *)
Definition no_country_certificate : PeerCert :=
  {| cert_issuer := Some [[("organizationName", "Example Trust")];
                          [("organizationalUnitName", "Issuing")];
                          [("commonName", "Example CA 1")]];
     cert_notBefore := Some "Jan  1 00:00:00 2026 GMT";
     cert_notAfter := Some "Apr  1 00:00:00 2026 GMT" |}.

(** Two iframes of another site whose [src] mentions the placeholder in
    the query, one of them sized 0. *)
Definition redirect_iframes_page : Bs4.Soup :=
  [Bs4.Element "iframe"
     [("src", "https://evil.example/?next=your-website-domain.com"); ("width", "0")] [];
   Bs4.Element "iframe"
     [("src", "//cdn.example/your-website-domain.com.js")] []].

(** Links to a dotted-decimal host, to a host made of digits and to a
    named host, and a relative link. *)
Definition ip_links_page : Bs4.Soup :=
  [Bs4.Element "a" [("href", "http://192.168.0.1/login")] [];
   Bs4.Element "a" [("href", "https://2130706433/")] [];
   Bs4.Element "a" [("href", "https://site.com/a")] [];
   Bs4.Element "a" [("href", "192.168.0.1")] []].

End Scenario.

(** * Properties *)

Unset Implicit Arguments.

(** ** The error monad and the loops *)

Lemma try_except_inr {A} (v : A) (handler : res A) :
  try_except (inr v) handler = inr v.
Proof. reflexivity. Qed.

Lemma try_except_inl {A} (e : exn) (handler : res A) :
  try_except (inl e) handler = handler.
Proof. reflexivity. Qed.

(** A handler that returns makes the whole statement return. *)
Lemma try_except_returns {A} (body : res A) (v : A) :
  exists r, try_except body (ret v) = inr r.
Proof. destruct body as [e | a]; [exists v | exists a]; reflexivity. Qed.

Lemma try_except_cases {A} (body : res A) (v : A) :
  (exists a, body = inr a /\ try_except body (ret v) = inr a)
  \/ (exists e, body = inl e /\ try_except body (ret v) = inr v).
Proof.
  destruct body as [e | a]; [right; exists e | left; exists a]; split; reflexivity.
Qed.

Lemma for_in_app {A S} (body : A -> S -> res S) (xs ys : list A) (s s' : S) :
  for_in body xs s = inr s' ->
  for_in body (xs ++ ys) s = for_in body ys s'.
Proof.
  revert s. induction xs as [| x xs IH]; intros s H; simpl in *.
  - now inversion H.
  - destruct (body x s) as [e | s1]; [discriminate | now apply IH].
Qed.

Lemma res_bind_inv {A B} (c : res A) (k : A -> res B) (b : B) :
  (x <- c ;; k x) = inr b -> exists a, c = inr a /\ k a = inr b.
Proof.
  destruct c as [e | a]; cbn; [discriminate |].
  intros H. exists a. split; [reflexivity | exact H].
Qed.

Lemma res_bind_inl {A B} (c : res A) (k : A -> res B) (e : exn) :
  (x <- c ;; k x) = inl e ->
  c = inl e \/ exists a, c = inr a /\ k a = inl e.
Proof.
  destruct c as [e' | a]; cbn; [intros H; left; congruence |].
  intros H. right. exists a. split; [reflexivity | exact H].
Qed.

(** Splitting a sequence of binds that returned. *)
Ltac bind_inv H :=
  repeat first
    [ apply res_bind_inv in H; destruct H as (? & ? & H)
    | match type of H with
      | (let '(_, _) := ?p in _) = _ => destruct p
      end ].

(** ** Link density *)

(** C7. A document without words has link density 0: the division is
    not reached and nothing is raised.  With at least one word the
    result is the quotient of the number of anchors by the number of
    words, which is not negative. *)
Theorem link_density_zero_words_safe (soup : Bs4.Soup) :
  let link_count := length (Bs4.find_all "a" soup) in
  let word_count := length (Py.split (Bs4.get_text " " soup)) in
  (word_count = 0 -> extract_link_density soup = inr (VInt 0))
  /\ (0 < word_count ->
      extract_link_density soup
        = inr (VFloat (Z.of_nat link_count # Pos.of_nat word_count))
      /\ (0 <= Z.of_nat link_count # Pos.of_nat word_count)%Q).
Proof.
  intros link_count word_count. unfold extract_link_density.
  fold link_count. fold word_count.
  split.
  - intros ->. reflexivity.
  - intros Hpos. destruct word_count as [| k] eqn:Hw; [lia |].
    split; [reflexivity |].
    unfold Qle. simpl. lia.
Qed.

Lemma link_density_zero_words_safe_witness :
  extract_link_density Offline.wordless_page = inr (VInt 0)
  /\ extract_link_density Offline.links_page = inr (VFloat (4 # 6)).
Proof.
  split.
  - apply (proj1 (link_density_zero_words_safe Offline.wordless_page)).
    reflexivity.
  - apply (proj2 (link_density_zero_words_safe Offline.links_page)).
    vm_compute. lia.
Defined.

(** ** The HTTPS flag *)

Lemma prefix_app_l (p q s : string) :
  String.prefix (p ++ q) s = true -> String.prefix p s = true.
Proof.
  revert s. induction p as [| a p IH]; intros s H.
  - now destruct s.
  - destruct s as [| b s]; simpl in *; [discriminate |].
    destruct (Ascii.ascii_dec a b); [now apply IH | discriminate].
Qed.

Lemma prefix_https_http (s : string) :
  String.prefix "https" s = true -> String.prefix "http" s = true.
Proof. apply (prefix_app_l "http" "s"). Qed.

Lemma extract_if_https_eq (url : string) :
  extract_if_https url = inr (VInt (if Py.startswith url "http" then 1 else 0)).
Proof.
  unfold extract_if_https, Py.startswith. cbn.
  destruct (String.prefix "https" url) eqn:Hs.
  - now rewrite (prefix_https_http _ Hs).
  - reflexivity.
Qed.

(** C2, as the code has it.  The flag of a row is computed from the
    original URL alone, not from the fetch target nor from what was
    fetched; it is 1 exactly when that string starts with the
    characters [http], which holds for [https] URLs and for [http] URLs
    alike, and 0 otherwise. *)
Theorem if_https_from_original_url (w : Collaborators) (url http_url : string) (row : Row) :
  get_row w url http_url = inr row ->
  extract_if_https url = inr (If_HTTPS row)
  /\ If_HTTPS row = VInt (if Py.startswith url "http" then 1 else 0).
Proof.
  intros H. unfold get_row in H.
  bind_inv H.
  inversion H; subst; clear H. cbn [If_HTTPS].
  split; [assumption |].
  match goal with E : extract_if_https url = inr ?v |- _ =>
    rewrite extract_if_https_eq in E; now inversion E end.
Qed.

Lemma if_https_from_original_url_witness :
  exists row,
    get_row Offline.net "https://example.com" "http://example.org" = inr row
    /\ If_HTTPS row = VInt 1.
Proof.
  eexists. split; [reflexivity |].
  apply (proj2 (if_https_from_original_url Offline.net "https://example.com"
                  "http://example.org" _ eq_refl)).
Defined.

(** The flag is 1 for a URL presented with the [http] scheme. *)
Lemma if_https_is_1_for_http_url :
  extract_if_https "http://example.com" = inr (VInt 1)
  /\ Py.startswith "http://example.com" "https" = false
  /\ extract_if_https "http://example.com" <> inr (VInt 0).
Proof. repeat split; try reflexivity. discriminate. Qed.

(** ** Link classification *)

Lemma hrefs_of_filtered (anchors : list Bs4.Tag) :
  Forall (fun a => Bs4.get a "href" <> None) anchors ->
  hrefs_of anchors = inr (map (fun a => Bs4.get_default a "href" "") anchors).
Proof.
  induction 1 as [| a rest Ha _ IH]; [reflexivity |].
  cbn [hrefs_of map]. unfold Bs4.getitem, Bs4.get_default.
  destruct (Bs4.get a "href") as [v |]; [| congruence].
  cbn. rewrite IH. reflexivity.
Qed.

(** The comprehension over [find_all('a', href=True)] never raises. *)
Lemma hrefs_of_find_all_with (soup : Bs4.Soup) :
  hrefs_of (Bs4.find_all_with "a" "href" soup) = inr (href_values soup).
Proof.
  apply hrefs_of_filtered. unfold Bs4.find_all_with.
  apply Forall_forall. intros a Ha. apply filter_In in Ha as [_ Ha].
  destruct (Bs4.get a "href"); [discriminate | discriminate].
Qed.

Lemma href_values_length (soup : Bs4.Soup) :
  length (href_values soup) = length (Bs4.find_all_with "a" "href" soup).
Proof. apply length_map. Qed.

(** One turn of the loop adds one to exactly one of the three scheme
    counters and leaves the other two as they were. *)
Lemma link_step_scheme (w : Collaborators) (domain link : string) (c c' : LinkCounts) :
  link_step w domain link c = inr c' ->
  (https_count c' = https_count c + 1 /\ http_count c' = http_count c
   /\ non_count c' = non_count c)
  \/ (https_count c' = https_count c /\ http_count c' = http_count c + 1
      /\ non_count c' = non_count c)
  \/ (https_count c' = https_count c /\ http_count c' = http_count c
      /\ non_count c' = non_count c + 1).
Proof.
  unfold link_step. intros H. bind_inv H. inversion H; subst; clear H.
  repeat match goal with
    | |- context [if ?b then _ else _] => destruct b
    end; cbn; auto.
Qed.

(** One turn of the loop adds one to the external counter when the link
    is external, to the internal counter when it is internal, and the
    two cases exclude each other. *)
Lemma link_step_locality (w : Collaborators) (domain link : string) (c c' : LinkCounts) :
  link_step w domain link c = inr c' ->
  external_count c' = external_count c + (if is_external_link w domain link then 1 else 0)
  /\ internal_count c' = internal_count c + (if is_internal_link w domain link then 1 else 0).
Proof.
  unfold link_step, is_external_link, is_internal_link. intros H. bind_inv H.
  match goal with E : urlparse w link = inr _ |- _ => rewrite E end.
  inversion H; subst; clear H.
  repeat match goal with
    | |- context [if ?b then _ else _] => destruct b
    end; cbn; split; lia.
Qed.

Lemma link_step_raises (w : Collaborators) (domain link : string) (c : LinkCounts) (e : exn) :
  link_step w domain link c = inl e -> urlparse w link = inl e.
Proof.
  unfold link_step. intros H. apply res_bind_inl in H as [H | (p & _ & H)];
    [exact H | discriminate].
Qed.

Lemma link_loop_counts (w : Collaborators) (domain : string) (links : list string) :
  forall c c', for_in (link_step w domain) links c = inr c' ->
    https_count c' + http_count c' + non_count c'
      = https_count c + http_count c + non_count c + length links
    /\ external_count c' = external_count c + count (is_external_link w domain) links
    /\ internal_count c' = internal_count c + count (is_internal_link w domain) links.
Proof.
  unfold count.
  induction links as [| link rest IH]; intros c c' H; cbn [for_in] in H.
  - inversion H; subst. cbn. lia.
  - apply res_bind_inv in H as (c1 & H1 & H).
    destruct (IH _ _ H) as (Hs & He & Hi).
    destruct (link_step_locality _ _ _ _ _ H1) as (He1 & Hi1).
    pose proof (link_step_scheme _ _ _ _ _ H1) as Hs1.
    cbn [filter length].
    destruct (is_external_link w domain link), (is_internal_link w domain link);
      cbn [length]; lia.
Qed.

Lemma link_loop_raises (w : Collaborators) (domain : string) (links : list string) :
  forall c e, for_in (link_step w domain) links c = inl e ->
    exists link, In link links /\ urlparse w link = inl e.
Proof.
  induction links as [| link rest IH]; intros c e H; cbn [for_in] in H.
  - discriminate.
  - apply res_bind_inl in H as [H | (c1 & _ & H)].
    + exists link. split; [now left | eapply link_step_raises; eauto].
    + destruct (IH _ _ H) as (l & Hl & El). exists l. split; [now right | exact El].
Qed.

(** A link cannot be both external and internal, and is one of the two
    exactly when it has a network location. *)
Lemma external_internal_split (w : Collaborators) (domain : string) (links : list string) :
  count (is_external_link w domain) links + count (is_internal_link w domain) links
  = count (has_netloc w) links.
Proof.
  unfold count. induction links as [| link rest IH]; [reflexivity |].
  cbn [filter]. unfold is_external_link, is_internal_link, has_netloc in *.
  destruct (urlparse w link) as [e | p]; [exact IH |].
  destruct (Py.truthy (Urllib.netloc p)), (Py.contains domain (Urllib.netloc p));
    cbn [andb negb length]; lia.
Qed.

(** What [extract_link_features] returns, in its two outcomes. *)
Lemma extract_link_features_cases (w : Collaborators) (soup : Bs4.Soup) (domain : string) :
  (exists c,
      for_in (link_step w domain) (href_values soup) (mkLinkCounts 0 0 0 0 0 0) = inr c
      /\ extract_link_features w soup domain = inr (link_counts_values c))
  \/ (extract_link_features w soup domain = inr (Error, Error, Error, Error, Error, Error)
      /\ exists link e, In link (href_values soup) /\ urlparse w link = inl e).
Proof.
  unfold extract_link_features. rewrite hrefs_of_find_all_with. cbn [bind Monad_either].
  destruct (for_in (link_step w domain) (href_values soup) (mkLinkCounts 0 0 0 0 0 0))
    as [e | c] eqn:E.
  - right. split; [reflexivity |].
    destruct (link_loop_raises _ _ _ _ _ E) as (l & Hl & El). now exists l, e.
  - left. exists c. split; reflexivity.
Qed.

(** C8. Every anchor with an [href] adds one to exactly one of the
    counters for [https], [http] and neither, so the three counters
    returned add up to the number of anchors with an [href].  The only
    other outcome is the six failure markers, when some [href] cannot be
    split as a URL. *)
Theorem scheme_counters_partition_hrefs (w : Collaborators) (soup : Bs4.Soup) (domain : string) :
  (exists c,
      extract_link_features w soup domain = inr (link_counts_values c)
      /\ https_count c + http_count c + non_count c
         = length (Bs4.find_all_with "a" "href" soup))
  \/ (extract_link_features w soup domain = inr (Error, Error, Error, Error, Error, Error)
      /\ exists link e, In link (href_values soup) /\ urlparse w link = inl e).
Proof.
  destruct (extract_link_features_cases w soup domain) as [(c & Hloop & Hres) | Herr].
  - left. exists c. split; [exact Hres |].
    destruct (link_loop_counts _ _ _ _ _ Hloop) as (Hs & _ & _).
    cbn in Hs. rewrite Hs. apply href_values_length.
  - right. exact Herr.
Qed.

(** C10. An anchor whose [href] has a network location adds one to the
    internal counter when the reference domain occurs in that location
    and to the external counter otherwise; an anchor without one adds to
    neither.  So the two counters returned add up to the number of
    anchors with a network location.  The only other outcome is the six
    failure markers, when some [href] cannot be split as a URL. *)
Theorem external_internal_partition_netloc (w : Collaborators) (soup : Bs4.Soup) (domain : string) :
  (exists c,
      extract_link_features w soup domain = inr (link_counts_values c)
      /\ internal_count c = count (is_internal_link w domain) (href_values soup)
      /\ external_count c = count (is_external_link w domain) (href_values soup)
      /\ external_count c + internal_count c = count (has_netloc w) (href_values soup))
  \/ (extract_link_features w soup domain = inr (Error, Error, Error, Error, Error, Error)
      /\ exists link e, In link (href_values soup) /\ urlparse w link = inl e).
Proof.
  destruct (extract_link_features_cases w soup domain) as [(c & Hloop & Hres) | Herr].
  - left. exists c. split; [exact Hres |].
    destruct (link_loop_counts _ _ _ _ _ Hloop) as (_ & He & Hi).
    cbn in He, Hi. rewrite He, Hi. repeat split.
    apply external_internal_split.
  - right. exact Herr.
Qed.

(** ** Iframes *)

(** One turn of the loop adds one to the external counter exactly when
    the iframe is external, and one to the hidden counter exactly when
    it is hidden; neither test looks at the other. *)
Lemma iframe_step_counts (w : Collaborators) (iframe : Bs4.Tag) (c c' : IframeCounts) :
  iframe_step w iframe c = inr c' ->
  external_iframes_count c'
    = external_iframes_count c + (if is_external_iframe w iframe then 1 else 0)
  /\ hidden_iframes_count c'
    = hidden_iframes_count c + (if is_hidden_iframe iframe then 1 else 0).
Proof.
  unfold iframe_step, is_external_iframe, is_hidden_iframe, has_netloc.
  intros H. bind_inv H.
  match goal with E : urlparse w _ = inr _ |- _ => rewrite E end.
  inversion H; subst; clear H.
  repeat match goal with
    | |- context [if ?b then _ else _] => destruct b
    end; cbn; split; lia.
Qed.

Lemma iframe_step_raises (w : Collaborators) (iframe : Bs4.Tag) (c : IframeCounts) (e : exn) :
  iframe_step w iframe c = inl e ->
  urlparse w (Bs4.get_default iframe "src" "") = inl e.
Proof.
  unfold iframe_step. intros H. apply res_bind_inl in H as [H | (p & _ & H)];
    [exact H | discriminate].
Qed.

Lemma iframe_loop_counts (w : Collaborators) (iframes : list Bs4.Tag) :
  forall c c', for_in (iframe_step w) iframes c = inr c' ->
    external_iframes_count c'
      = external_iframes_count c + count (is_external_iframe w) iframes
    /\ hidden_iframes_count c'
      = hidden_iframes_count c + count is_hidden_iframe iframes.
Proof.
  unfold count.
  induction iframes as [| f rest IH]; intros c c' H; cbn [for_in] in H.
  - inversion H; subst. cbn. lia.
  - apply res_bind_inv in H as (c1 & H1 & H).
    destruct (IH _ _ H) as (He & Hh).
    destruct (iframe_step_counts _ _ _ _ H1) as (He1 & Hh1).
    cbn [filter].
    destruct (is_external_iframe w f), (is_hidden_iframe f); cbn [length]; lia.
Qed.

Lemma iframe_loop_raises (w : Collaborators) (iframes : list Bs4.Tag) :
  forall c e, for_in (iframe_step w) iframes c = inl e ->
    exists f, In f iframes /\ urlparse w (Bs4.get_default f "src" "") = inl e.
Proof.
  induction iframes as [| f rest IH]; intros c e H; cbn [for_in] in H.
  - discriminate.
  - apply res_bind_inl in H as [H | (c1 & _ & H)].
    + exists f. split; [now left | eapply iframe_step_raises; eauto].
    + destruct (IH _ _ H) as (g & Hg & Eg). exists g. split; [now right | exact Eg].
Qed.

(** C9. The external counter returned is the number of iframes whose
    [src] has a network location and does not contain the self-domain
    placeholder; the hidden counter is the number of iframes whose width
    or height attribute is the string ["0"].  The two are counted
    separately: [<iframe src="//ads.example.net" width="0">] counts for
    both, and among four iframes one counts for both, one for the first
    only, one for the second only and one, sized ["0px"], for neither.
    The only other outcome is the two failure markers, when some [src]
    cannot be split as a URL. *)
Theorem iframe_counters_independent (w : Collaborators) (soup : Bs4.Soup) :
  ((extract_iframes w soup
      = inr (VCount (count (is_external_iframe w) (Bs4.find_all "iframe" soup)),
             VCount (count is_hidden_iframe (Bs4.find_all "iframe" soup))))
   \/ (extract_iframes w soup = inr (Error, Error)
       /\ exists f e, In f (Bs4.find_all "iframe" soup)
                      /\ urlparse w (Bs4.get_default f "src" "") = inl e))
  /\ extract_iframes Offline.net Offline.ad_iframe_page = inr (VInt 1, VInt 1)
  /\ map (fun f => (is_external_iframe Offline.net f, is_hidden_iframe f))
         (Bs4.find_all "iframe" Offline.iframes_page)
     = [(true, true); (true, false); (false, true); (false, false)]
  /\ extract_iframes Offline.net Offline.iframes_page = inr (VInt 2, VInt 2).
Proof.
  split; [| repeat split; reflexivity].
  unfold extract_iframes.
  destruct (for_in (iframe_step w) (Bs4.find_all "iframe" soup) (mkIframeCounts 0 0))
    as [e | c] eqn:E.
  - right. split; [reflexivity |].
    destruct (iframe_loop_raises _ _ _ _ E) as (f & Hf & Ef). now exists f, e.
  - left. destruct (iframe_loop_counts _ _ _ _ E) as (He & Hh).
    cbn in He, Hh. cbn. now rewrite He, Hh.
Qed.

(** ** The TLS certificate *)

(** C5. [extract_certificate] has two outcomes and no other: the five
    failure markers, or the five fields of a certificate that was
    obtained and read in full.  The second needs every step to succeed
    (the trust store, the TCP connection, the TLS handshake, the peer
    certificate, its three issuer entries and its two dates), so a
    failure of any of them gives the five markers together: a refused
    connection, a host without certificate, an issuer of two entries and
    a certificate without [notAfter] all give five markers, although in
    the last two some fields had been read. *)
Theorem certificate_all_or_nothing (w : Collaborators) (domain : string) :
  (extract_certificate w domain = inr (Error, Error, Error, Error, Error)
   \/ exists context sock ssock certificate country org cn notBefore notAfter,
        create_default_context w = inr context
        /\ create_connection w domain 443 = inr sock
        /\ wrap_socket w context sock domain = inr ssock
        /\ getpeercert w ssock = inr certificate
        /\ issuer_field certificate 0 = inr country
        /\ issuer_field certificate 1 = inr org
        /\ issuer_field certificate 2 = inr cn
        /\ cert_getitem certificate cert_notBefore = inr notBefore
        /\ cert_getitem certificate cert_notAfter = inr notAfter
        /\ extract_certificate w domain
           = inr (VStr country, VStr org, VStr cn, VStr notBefore, VStr notAfter))
  /\ extract_certificate Offline.net "example.com"
     = inr (Error, Error, Error, Error, Error)
  /\ extract_certificate (Offline.tls_world None) "example.com"
     = inr (Error, Error, Error, Error, Error)
  /\ extract_certificate (Offline.tls_world (Some Offline.short_issuer_certificate))
       "example.com"
     = inr (Error, Error, Error, Error, Error)
  /\ extract_certificate (Offline.tls_world (Some Offline.undated_certificate))
       "example.com"
     = inr (Error, Error, Error, Error, Error)
  /\ extract_certificate (Offline.tls_world (Some Offline.full_certificate))
       "example.com"
     = inr (VStr "US", VStr "Example Trust", VStr "Example CA 1",
            VStr "Jan  1 00:00:00 2026 GMT", VStr "Apr  1 00:00:00 2026 GMT").
Proof.
  split; [| repeat split; reflexivity].
  unfold extract_certificate.
  match goal with |- try_except ?b _ = _ \/ _ => destruct b as [e | r] eqn:E end.
  - left. reflexivity.
  - right. pose proof E as E'. bind_inv E'. inversion E'; subst; clear E'.
    do 9 eexists. repeat (split; [eassumption |]). reflexivity.
Qed.

Lemma certificate_markers_on_failure (w : Collaborators) (domain : string) (e : exn) :
  create_connection w domain 443 = inl e ->
  extract_certificate w domain = inr (Error, Error, Error, Error, Error).
Proof.
  intros H. unfold extract_certificate.
  destruct (create_default_context w) as [e0 | context]; [reflexivity |].
  cbn. rewrite H. reflexivity.
Qed.

Lemma certificate_markers_on_handshake_failure (w : Collaborators) (domain : string)
    (context : SSLContext w) (sock : Socket w) (e : exn) :
  create_default_context w = inr context ->
  create_connection w domain 443 = inr sock ->
  wrap_socket w context sock domain = inl e ->
  extract_certificate w domain = inr (Error, Error, Error, Error, Error).
Proof.
  intros Hc Hs He. unfold extract_certificate.
  rewrite Hc. cbn [bind Monad_either]. rewrite Hs. cbn [bind Monad_either].
  rewrite He. reflexivity.
Qed.

(** ** Failure isolation in the extractors and in [get_row] *)

Lemma extract_ip_address_cases (w : Collaborators) (domain : string) :
  (exists e, gethostbyname w domain = inl e
             /\ extract_ip_address w domain = inr Error)
  \/ (exists ip, gethostbyname w domain = inr ip
                 /\ extract_ip_address w domain = inr (VStr ip)).
Proof.
  unfold extract_ip_address.
  destruct (gethostbyname w domain) as [e | ip];
    [left; exists e | right; exists ip]; split; reflexivity.
Qed.

Lemma extract_whois_cases (w : Collaborators) (domain : string) :
  extract_whois w domain = inr (Error, Error, Error)
  \/ (exists info country created expires,
        whois w domain = inr info
        /\ dict_getitem info "country" = inr country
        /\ dict_getitem info "creation_date" = inr created
        /\ dict_getitem info "expiration_date" = inr expires
        /\ extract_whois w domain = inr (country, created, expires)).
Proof.
  unfold extract_whois.
  match goal with |- try_except ?b _ = _ \/ _ => destruct b as [e | r] eqn:E end.
  - left. reflexivity.
  - right. pose proof E as E'. bind_inv E'. inversion E'; subst; clear E'.
    do 4 eexists. repeat (split; [eassumption |]). reflexivity.
Qed.

Lemma extract_link_density_returns (soup : Bs4.Soup) :
  exists v, extract_link_density soup = inr v.
Proof. apply try_except_returns. Qed.

Lemma extract_link_features_returns (w : Collaborators) (soup : Bs4.Soup) (domain : string) :
  exists v, extract_link_features w soup domain = inr v.
Proof. apply try_except_returns. Qed.

Lemma extract_iframes_returns (w : Collaborators) (soup : Bs4.Soup) :
  exists v, extract_iframes w soup = inr v.
Proof. apply try_except_returns. Qed.

Lemma extract_certificate_returns (w : Collaborators) (domain : string) :
  exists v, extract_certificate w domain = inr v.
Proof. apply try_except_returns. Qed.

Lemma extract_whois_returns (w : Collaborators) (domain : string) :
  exists v, extract_whois w domain = inr v.
Proof. apply try_except_returns. Qed.

Lemma extract_ip_address_returns (w : Collaborators) (domain : string) :
  exists v, extract_ip_address w domain = inr v.
Proof. apply try_except_returns. Qed.

(** Once the page is fetched, parsed and the target split, the row is
    built whatever the extractors meet. *)
Lemma get_row_after_parsing (w : Collaborators) (url http_url : string)
    (page : Response) (soup : Bs4.Soup) (parsed_url : Urllib.ParseResult) :
  requests_get w http_url 120 = inr page ->
  BeautifulSoup w (content page) "html.parser" = inr soup ->
  urlparse w http_url = inr parsed_url ->
  exists row, get_row w url http_url = inr row.
Proof.
  intros Hp Hs Hu. unfold get_row. rewrite Hp. cbn [bind Monad_either].
  rewrite Hs, Hu.
  destruct (extract_ip_address_returns w (Urllib.netloc parsed_url)) as (v1 & ->).
  destruct (extract_link_density_returns soup) as (v2 & ->).
  destruct (extract_link_features_returns w soup (Urllib.netloc parsed_url))
    as ([[[[[? ?] ?] ?] ?] ?] & ->).
  destruct (extract_iframes_returns w soup) as ([? ?] & ->).
  destruct (extract_certificate_returns w (Urllib.netloc parsed_url))
    as ([[[[? ?] ?] ?] ?] & ->).
  rewrite extract_if_https_eq.
  destruct (extract_whois_returns w (Urllib.netloc parsed_url)) as ([[? ?] ?] & ->).
  eexists. reflexivity.
Qed.

Lemma extract_certificate_cases (w : Collaborators) (domain : string) :
  extract_certificate w domain = inr (Error, Error, Error, Error, Error)
  \/ exists context sock ssock certificate country org cn notBefore notAfter,
       create_default_context w = inr context
       /\ create_connection w domain 443 = inr sock
       /\ wrap_socket w context sock domain = inr ssock
       /\ getpeercert w ssock = inr certificate
       /\ issuer_field certificate 0 = inr country
       /\ issuer_field certificate 1 = inr org
       /\ issuer_field certificate 2 = inr cn
       /\ cert_getitem certificate cert_notBefore = inr notBefore
       /\ cert_getitem certificate cert_notAfter = inr notAfter
       /\ extract_certificate w domain
          = inr (VStr country, VStr org, VStr cn, VStr notBefore, VStr notAfter).
Proof.
  unfold extract_certificate.
  match goal with |- try_except ?b _ = _ \/ _ => destruct b as [e | r] eqn:E end.
  - left. reflexivity.
  - right. pose proof E as E'. bind_inv E'. inversion E'; subst; clear E'.
    do 9 eexists. repeat (split; [eassumption |]). reflexivity.
Qed.

(** C4, as the code has it.  Each of the seven extractors returns,
    whatever is raised inside it, and what it returns is fixed by what
    happened inside: the values it computed when every step went
    through, and failure markers for all the fields it owns as soon as
    one step raised (the resolver; any of the nine steps of the
    certificate; the registry query or one of its three keys; the
    splitting of one [href]; the splitting of one [src]).  Link density
    and the HTTPS flag have no step that raises.  So a refused
    resolution, a certificate without [notAfter], a registry record
    without expiration date, a second [href] that cannot be split and a
    second [src] that cannot be split give one, five, three, six and
    two markers.  [get_row] raises exactly what one of its three
    unguarded steps raises (the page fetch, the construction of the
    parsed document, the splitting of the fetch target), and returns a
    row in every other case. *)
Theorem extractors_isolate_failures (w : Collaborators) (url http_url : string)
    (soup : Bs4.Soup) (domain : string) :
  match gethostbyname w domain with
  | inl _ => extract_ip_address w domain = inr Error
  | inr ip => extract_ip_address w domain = inr (VStr ip)
  end
  /\ (extract_certificate w domain = inr (Error, Error, Error, Error, Error)
      \/ exists context sock ssock certificate country org cn notBefore notAfter,
           create_default_context w = inr context
           /\ create_connection w domain 443 = inr sock
           /\ wrap_socket w context sock domain = inr ssock
           /\ getpeercert w ssock = inr certificate
           /\ issuer_field certificate 0 = inr country
           /\ issuer_field certificate 1 = inr org
           /\ issuer_field certificate 2 = inr cn
           /\ cert_getitem certificate cert_notBefore = inr notBefore
           /\ cert_getitem certificate cert_notAfter = inr notAfter
           /\ extract_certificate w domain
              = inr (VStr country, VStr org, VStr cn, VStr notBefore, VStr notAfter))
  /\ (extract_whois w domain = inr (Error, Error, Error)
      \/ exists info country created expires,
           whois w domain = inr info
           /\ dict_getitem info "country" = inr country
           /\ dict_getitem info "creation_date" = inr created
           /\ dict_getitem info "expiration_date" = inr expires
           /\ extract_whois w domain = inr (country, created, expires))
  /\ extract_link_density soup
     = inr (match length (Py.split (Bs4.get_text " " soup)) with
            | O => VInt 0
            | S k => VFloat (Z.of_nat (length (Bs4.find_all "a" soup)) # Pos.of_nat (S k))
            end)
  /\ match for_in (link_step w domain) (href_values soup) (mkLinkCounts 0 0 0 0 0 0) with
     | inr c => extract_link_features w soup domain = inr (link_counts_values c)
     | inl e =>
         extract_link_features w soup domain
         = inr (Error, Error, Error, Error, Error, Error)
         /\ exists link, In link (href_values soup) /\ urlparse w link = inl e
     end
  /\ match for_in (iframe_step w) (Bs4.find_all "iframe" soup) (mkIframeCounts 0 0) with
     | inr c =>
         extract_iframes w soup
         = inr (VCount (external_iframes_count c), VCount (hidden_iframes_count c))
         /\ external_iframes_count c
            = count (is_external_iframe w) (Bs4.find_all "iframe" soup)
         /\ hidden_iframes_count c
            = count is_hidden_iframe (Bs4.find_all "iframe" soup)
     | inl e =>
         extract_iframes w soup = inr (Error, Error)
         /\ exists f, In f (Bs4.find_all "iframe" soup)
                      /\ urlparse w (Bs4.get_default f "src" "") = inl e
     end
  /\ extract_if_https url = inr (VInt (if Py.startswith url "http" then 1 else 0))
  /\ match requests_get w http_url 120 with
     | inl e => get_row w url http_url = inl e
     | inr page =>
         match BeautifulSoup w (content page) "html.parser" with
         | inl e => get_row w url http_url = inl e
         | inr _ =>
             match urlparse w http_url with
             | inl e => get_row w url http_url = inl e
             | inr _ => exists row, get_row w url http_url = inr row
             end
         end
     end
  /\ extract_ip_address Offline.net "example.com" = inr Error
  /\ extract_certificate (Offline.tls_world (Some Offline.undated_certificate))
       "example.com"
     = inr (Error, Error, Error, Error, Error)
  /\ extract_whois
       (Scenario.whois_world (inr [("country", VStr "US"); ("creation_date", VNone)]))
       "example.com"
     = inr (Error, Error, Error)
  /\ extract_link_features Offline.net Offline.bad_href_page "site.com"
     = inr (Error, Error, Error, Error, Error, Error)
  /\ extract_iframes Offline.net Scenario.bad_src_iframes_page = inr (Error, Error).
Proof.
  split.
  { unfold extract_ip_address.
    destruct (gethostbyname w domain) as [e | ip]; reflexivity. }
  split; [apply extract_certificate_cases |].
  split; [apply extract_whois_cases |].
  split.
  { unfold extract_link_density.
    destruct (length (Py.split (Bs4.get_text " " soup))) as [| k]; reflexivity. }
  split.
  { unfold extract_link_features. rewrite hrefs_of_find_all_with.
    cbn [bind Monad_either].
    destruct (for_in (link_step w domain) (href_values soup) (mkLinkCounts 0 0 0 0 0 0))
      as [e | c] eqn:E; [| reflexivity].
    split; [reflexivity |]. apply (link_loop_raises _ _ _ _ _ E). }
  split.
  { unfold extract_iframes.
    destruct (for_in (iframe_step w) (Bs4.find_all "iframe" soup) (mkIframeCounts 0 0))
      as [e | c] eqn:E.
    - split; [reflexivity |]. apply (iframe_loop_raises _ _ _ _ E).
    - split; [reflexivity |]. apply (iframe_loop_counts _ _ _ _ E). }
  split; [apply extract_if_https_eq |].
  split; [| repeat split; reflexivity].
  destruct (requests_get w http_url 120) as [e | page] eqn:Hp.
  { unfold get_row. rewrite Hp. reflexivity. }
  destruct (BeautifulSoup w (content page) "html.parser") as [e | sp] eqn:Hs.
  { unfold get_row. rewrite Hp. cbn [bind Monad_either]. rewrite Hs. reflexivity. }
  destruct (urlparse w http_url) as [e | pu] eqn:Hu.
  { unfold get_row. rewrite Hp. cbn [bind Monad_either]. rewrite Hs, Hu. reflexivity. }
  eapply get_row_after_parsing; eauto.
Qed.

(** The page of [broken.example] is fetched, the parser rejects its
    markup, and [get_row] raises the parser's error: not a failure of
    the page fetch. *)
Lemma get_row_raises_parser_error :
  requests_get Scenario.strict_net "http://broken.example" 120
  = inr (mkResponse Scenario.rejected_markup)
  /\ get_row Scenario.strict_net "broken.example" "http://broken.example"
     = inl (OtherException "ParserRejectedMarkup" "expected name token").
Proof. split; reflexivity. Qed.

(** ** The dataset assembler *)

Lemma get_row_fetch_failure (w : Collaborators) (url http_url : string) (e : exn) :
  requests_get w http_url 120 = inl e -> get_row w url http_url = inl e.
Proof. intros H. unfold get_row. rewrite H. reflexivity. Qed.

(** C1. When the page fetch made for one URL of the batch raises a
    timeout or another request error, that turn of the loop ends
    normally with the table unchanged, and the batch goes on with the
    URLs that follow, in their order. *)
Theorem fetch_failure_skips_url (w : Collaborators) (before after : list string)
    (url target : string) (st0 st : Locals Row) (e : exn) :
  dataset_loop w (get_row w) before st0 = inr st ->
  assign_http_url w url (http_url st) = inr (Some target) ->
  requests_get w target 120 = inl e ->
  is_RequestException e = true ->
  exists st',
    dataset_step w (get_row w) url st = inr st'
    /\ df st' = df st
    /\ dataset_loop w (get_row w) (before ++ url :: after) st0
       = dataset_loop w (get_row w) after st'.
Proof.
  intros Hbefore Htarget Hfetch Hreq.
  assert (Hstep : exists st', dataset_step w (get_row w) url st = inr st' /\ df st' = df st).
  { unfold dataset_step. rewrite Htarget. cbn [bind Monad_either read_local ret].
    rewrite (get_row_fetch_failure w url target e Hfetch).
    destruct (is_Timeout e).
    - eexists. split; reflexivity.
    - rewrite Hreq. eexists. split; reflexivity. }
  destruct Hstep as (st' & Hstep & Hdf).
  exists st'. repeat split; [exact Hstep | exact Hdf |].
  unfold dataset_loop. rewrite (for_in_app _ _ (url :: after) _ _ Hbefore).
  cbn [for_in]. rewrite Hstep. reflexivity.
Qed.

Lemma fetch_failure_skips_url_witness :
  exists st st',
    dataset_loop Offline.net (get_row Offline.net) ["example.com"] (mkLocals [] None [])
      = inr st
    /\ length (df st) = 1
    /\ dataset_step Offline.net (get_row Offline.net)
         "nonexistent-domain-xyz123.test" st = inr st'
    /\ df st' = df st
    /\ dataset_loop Offline.net (get_row Offline.net)
         (["example.com"] ++ "nonexistent-domain-xyz123.test" :: ["example.org"])
         (mkLocals [] None [])
       = dataset_loop Offline.net (get_row Offline.net) ["example.org"] st'.
Proof.
  eexists.
  destruct (fetch_failure_skips_url Offline.net ["example.com"] ["example.org"]
              "nonexistent-domain-xyz123.test"
              "http://nonexistent-domain-xyz123.test"
              (mkLocals [] None []) _ (RequestException "Max retries exceeded")
              eq_refl eq_refl eq_refl eq_refl) as (st' & Hstep & Hdf & Hloop).
  exists st'. repeat split; [exact Hstep | exact Hdf | exact Hloop].
Defined.

(** What [http_url] holds after lines 288 and 289. *)
Lemma assign_http_url_eq (w : Collaborators) (url : string) (held : option string)
    (parsed : Urllib.ParseResult) :
  urlparse w url = inr parsed ->
  assign_http_url w url held
  = inr (if Py.truthy (Urllib.scheme parsed) then held else Some ("http://" ++ url)).
Proof.
  intros H. unfold assign_http_url. rewrite H. cbn.
  destruct (Py.truthy (Urllib.scheme parsed)); reflexivity.
Qed.

(** C3, on the code.  A URL that carries a scheme is passed to the row
    builder with the fetch target of an earlier URL, not with itself:
    here ["https://b.org"] is fetched at ["http://example.com"].  When
    no earlier URL lacked a scheme there is no target at all and the
    batch ends with [UnboundLocalError]. *)
Theorem url_with_scheme_gets_stale_target :
  create_dataset_with Offline.net (fun url http_url => inr (url, http_url))
    ["example.com"; "https://b.org"]
  = inr [("example.com", "http://example.com"); ("https://b.org", "http://example.com")]
  /\ create_dataset Offline.net ["https://b.org"] = inl UnboundLocalError.
Proof. split; reflexivity. Qed.

(** ** Curation *)

Lemma firstn_firstn_same {A} (n : nat) (l : list A) :
  firstn n (firstn n l) = firstn n l.
Proof. rewrite firstn_firstn. now rewrite Nat.min_id. Qed.

(** Lines 326 to 333 cut the phishing table, twice, and never the
    benign table. *)
Lemma curate_eq (w : Collaborators) (phishing_data benign_data : list Row)
    (df_phishing df_benign : list (string * string))
    (p b : list (Row * option string)) :
  merge_left phishing_data df_phishing = inr p ->
  merge_left benign_data df_benign = inr b ->
  curate w phishing_data benign_data df_phishing df_benign
  = inr (sample w (firstn 400 p ++ b)%list).
Proof.
  intros Hp Hb. unfold curate. rewrite Hp. cbn [bind Monad_either].
  rewrite Hb. cbn [bind ret Monad_either].
  now rewrite firstn_firstn_same.
Qed.

(** C6, on the code.  With one phishing row and 401 benign rows the
    table that is written holds all 401 benign rows: the benign class is
    not cut to 400. *)
Theorem benign_table_not_truncated :
  let urls := Offline.numbered_urls 401 in
  exists final_df,
    curate Offline.net [Offline.blank_row "phish.example"] (map Offline.blank_row urls)
      [("phish.example", "phishing")] (map (fun u => (u, "benign")) urls)
    = inr final_df
    /\ count (fun r => match snd r with
                       | Some t => String.eqb t "benign"
                       | None => false
                       end) final_df = 401.
Proof. eexists. split; vm_compute; reflexivity. Qed.

(** ** The scenarios of the specification, run *)

(** One anchor to [https://other.com/x] on a page of [site.com]. *)
Example one_external_https_anchor :
  extract_link_features Offline.net Offline.one_anchor_page "site.com"
  = inr (VInt 1, VInt 0, VInt 0, VInt 1, VInt 0, VInt 0).
Proof. reflexivity. Qed.

(** Four anchors, one of them without [href]. *)
Example links_page_counts :
  extract_link_features Offline.net Offline.links_page "site.com"
  = inr (VInt 1, VInt 1, VInt 0, VInt 1, VInt 1, VInt 1)
  /\ length (Bs4.find_all "a" Offline.links_page) = 4
  /\ length (Bs4.find_all_with "a" "href" Offline.links_page) = 3.
Proof. repeat split; reflexivity. Qed.

(** An [href] that cannot be split turns all six counts into markers. *)
Example bad_href_gives_six_markers :
  extract_link_features Offline.net Offline.bad_href_page "site.com"
  = inr (Error, Error, Error, Error, Error, Error).
Proof. reflexivity. Qed.

(** A reachable host and an unreachable one: one row, for the first. *)
Example two_urls_one_row :
  exists row,
    create_dataset Offline.net ["example.com"; "nonexistent-domain-xyz123.test"]
    = inr [row]
    /\ URL row = "example.com" /\ Domain row = "example.com"
    /\ If_HTTPS row = VInt 0.
Proof. eexists. repeat split; reflexivity. Qed.

(** What is printed for the same batch. *)
Example two_urls_printed :
  option_map (@stdout Row)
    (match dataset_loop Offline.net (get_row Offline.net)
             ["example.com"; "nonexistent-domain-xyz123.test"] (mkLocals [] None [])
     with inr st => Some st | inl _ => None end)
  = Some ["Successfully Added:  example.com";
          "Failed to fetch nonexistent-domain-xyz123.test: Max retries exceeded"].
Proof. reflexivity. Qed.

(** The flag on the three URLs of the test suite. *)
Example if_https_on_test_urls :
  extract_if_https "https://duotriali.com" = inr (VInt 1)
  /\ extract_if_https "http://duotriali.com" = inr (VInt 1)
  /\ extract_if_https "ftp://example.com" = inr (VInt 0).
Proof. repeat split; reflexivity. Qed.

(** * Further properties of the script *)

(** ** WHOIS *)

(** X1. When the registry answers but its record lacks one of the three
    keys the script reads, all three WHOIS fields are failure markers,
    also those whose key was there. *)
Theorem whois_missing_key_fails_all (w : Collaborators) (domain key : string)
    (info : list (string * value)) (e : exn) :
  whois w domain = inr info ->
  In key ["country"; "creation_date"; "expiration_date"] ->
  dict_getitem info key = inl e ->
  extract_whois w domain = inr (Error, Error, Error).
Proof.
  intros Hinfo Hkey Hmiss.
  destruct (extract_whois_cases w domain)
    as [H | (info' & c & cd & ed & Hi & Hc & Hcd & Hed & _)]; [exact H |].
  rewrite Hinfo in Hi. inversion Hi; subst info'.
  cbn in Hkey. destruct Hkey as [<- | [<- | [<- | []]]]; congruence.
Qed.

Lemma whois_missing_key_fails_all_witness :
  extract_whois
    (Scenario.whois_world (inr [("country", VStr "US"); ("creation_date", VNone)]))
    "example.com"
  = inr (Error, Error, Error).
Proof.
  apply (whois_missing_key_fails_all
           (Scenario.whois_world (inr [("country", VStr "US"); ("creation_date", VNone)]))
           "example.com" "expiration_date"
           [("country", VStr "US"); ("creation_date", VNone)] KeyError eq_refl).
  - cbn. auto.
  - reflexivity.
Defined.

(** ** The TLS certificate, read by position *)

(** X2. When the handshake gives a certificate with both dates and an
    issuer of at least three non-empty entries, the three issuer fields
    are the values of the first pair of the first three entries, in that
    order, whatever the keys of those pairs are. *)
Theorem certificate_fields_by_position (w : Collaborators) (domain : string)
    (context : SSLContext w) (sock : Socket w) (ssock : SSLSocket w)
    (k0 v0 k1 v1 k2 v2 : string) (r0 r1 r2 : list (string * string))
    (more : list (list (string * string))) (notBefore notAfter : string) :
  create_default_context w = inr context ->
  create_connection w domain 443 = inr sock ->
  wrap_socket w context sock domain = inr ssock ->
  getpeercert w ssock
  = inr (Some {| cert_issuer :=
                   Some (((k0, v0) :: r0) :: ((k1, v1) :: r1) :: ((k2, v2) :: r2) :: more);
                 cert_notBefore := Some notBefore;
                 cert_notAfter := Some notAfter |}) ->
  extract_certificate w domain
  = inr (VStr v0, VStr v1, VStr v2, VStr notBefore, VStr notAfter).
Proof.
  intros Hc Hs Hw Hp. unfold extract_certificate.
  rewrite Hc. cbn [bind Monad_either]. rewrite Hs. cbn [bind Monad_either].
  rewrite Hw. cbn [bind Monad_either]. rewrite Hp. reflexivity.
Qed.

Lemma certificate_fields_by_position_witness :
  extract_certificate (Offline.tls_world (Some Scenario.no_country_certificate))
    "example.com"
  = inr (VStr "Example Trust", VStr "Issuing", VStr "Example CA 1",
         VStr "Jan  1 00:00:00 2026 GMT", VStr "Apr  1 00:00:00 2026 GMT").
Proof.
  apply (certificate_fields_by_position
           (Offline.tls_world (Some Scenario.no_country_certificate))
           "example.com" tt tt tt
           "organizationName" "Example Trust" "organizationalUnitName" "Issuing"
           "commonName" "Example CA 1" [] [] [] []
           "Jan  1 00:00:00 2026 GMT" "Apr  1 00:00:00 2026 GMT");
    reflexivity.
Defined.

(** ** Link counters *)

Lemma hostname_needs_netloc (p : Urllib.ParseResult) (h : string) :
  Urllib.hostname p = Some h -> Py.truthy (Urllib.netloc p) = true.
Proof.
  destruct p as [sch nl]. destruct nl as [| c rest]; [| reflexivity].
  vm_compute. discriminate.
Qed.

Lemma ip_based_has_netloc (w : Collaborators) (link : string) :
  is_ip_based_link w link = true -> has_netloc w link = true.
Proof.
  unfold is_ip_based_link, has_netloc.
  destruct (urlparse w link) as [e | p]; [discriminate |].
  destruct (Urllib.hostname p) as [h |] eqn:Hh; [| discriminate].
  intros _. eapply hostname_needs_netloc; eauto.
Qed.

(** The counters [extract_link_features] returns are those the loop
    ended with. *)
Lemma external_internal_partition_cases (w : Collaborators) (soup : Bs4.Soup)
    (domain : string) (c : LinkCounts) :
  extract_link_features w soup domain = inr (link_counts_values c) ->
  external_count c = count (is_external_link w domain) (href_values soup)
  /\ internal_count c = count (is_internal_link w domain) (href_values soup)
  /\ external_count c + internal_count c = count (has_netloc w) (href_values soup).
Proof.
  intros Hres.
  destruct (extract_link_features_cases w soup domain)
    as [(c0 & Hloop & Hres0) | (Herr & _)];
    [| rewrite Herr in Hres; discriminate Hres].
  assert (c0 = c) as ->.
  { rewrite Hres0 in Hres. unfold link_counts_values, VCount in Hres.
    inversion Hres as [[He Hi Hip Hs Hh Hn]].
    apply Nat2Z.inj in He, Hi, Hip, Hs, Hh, Hn.
    destruct c0, c; cbn in *; congruence. }
  destruct (link_loop_counts _ _ _ _ _ Hloop) as (_ & He & Hi).
  cbn in He, Hi.
  pose proof (external_internal_split w domain (href_values soup)) as Hsplit.
  repeat split; lia.
Qed.

Lemma count_none {A} (f : A -> bool) (l : list A) :
  (forall x, In x l -> f x = false) -> count f l = 0.
Proof.
  unfold count. induction l as [| x l IH]; intros H; [reflexivity |].
  cbn [filter]. rewrite (H x (or_introl eq_refl)). apply IH.
  intros y Hy. apply H. now right.
Qed.

Lemma count_le_length {A} (p : A -> bool) (xs : list A) : count p xs <= length xs.
Proof. unfold count. apply filter_length_le. Qed.

Lemma count_le_count {A} (p q : A -> bool) (xs : list A) :
  (forall x, p x = true -> q x = true) -> count p xs <= count q xs.
Proof.
  intros Hpq. unfold count. induction xs as [| x xs IH]; [apply Nat.le_refl |].
  cbn [filter]. destruct (p x) eqn:Hp.
  - rewrite (Hpq x Hp). cbn [length]. lia.
  - destruct (q x); cbn [length]; lia.
Qed.

Lemma link_step_ip_based (w : Collaborators) (domain link : string) (c c' : LinkCounts) :
  link_step w domain link c = inr c' ->
  ip_based_count c' = ip_based_count c + (if is_ip_based_link w link then 1 else 0).
Proof.
  unfold link_step, is_ip_based_link. intros H. bind_inv H.
  match goal with E : urlparse w link = inr _ |- _ => rewrite E end.
  inversion H; subst; clear H.
  repeat match goal with
    | |- context [if ?b then _ else _] => destruct b
    end; cbn; lia.
Qed.

Lemma link_loop_ip_based (w : Collaborators) (domain : string) (links : list string) :
  forall c c', for_in (link_step w domain) links c = inr c' ->
    ip_based_count c' = ip_based_count c + count (is_ip_based_link w) links.
Proof.
  unfold count.
  induction links as [| link rest IH]; intros c c' H; cbn [for_in] in H.
  - inversion H; subst. cbn. lia.
  - apply res_bind_inv in H as (c1 & H1 & H).
    rewrite (IH _ _ H), (link_step_ip_based _ _ _ _ _ H1).
    cbn [filter]. destruct (is_ip_based_link w link); cbn [length]; lia.
Qed.

(** X3. When [extract_link_features] returns counters, the IP-based
    counter is the number of links whose host name is made of digits and
    dots, every such link is also counted as external or internal, and
    neither sum exceeds the number of anchors with an [href]. *)
Theorem link_counters_bounds (w : Collaborators) (soup : Bs4.Soup) (domain : string)
    (c : LinkCounts) :
  extract_link_features w soup domain = inr (link_counts_values c) ->
  ip_based_count c = count (is_ip_based_link w) (href_values soup)
  /\ ip_based_count c <= external_count c + internal_count c
  /\ external_count c + internal_count c <= length (href_values soup).
Proof.
  intros Hres.
  destruct (extract_link_features_cases w soup domain)
    as [(c0 & Hloop & Hres0) | (Herr & _)];
    [| rewrite Herr in Hres; discriminate Hres].
  assert (c0 = c) as ->.
  { rewrite Hres0 in Hres. unfold link_counts_values, VCount in Hres.
    inversion Hres as [[He Hi Hip Hs Hh Hn]].
    apply Nat2Z.inj in He, Hi, Hip, Hs, Hh, Hn.
    destruct c0, c; cbn in *; congruence. }
  pose proof (link_loop_ip_based _ _ _ _ _ Hloop) as Hip.
  destruct (link_loop_counts _ _ _ _ _ Hloop) as (_ & He & Hi).
  cbn in Hip, He, Hi.
  pose proof (external_internal_split w domain (href_values soup)) as Hsplit.
  pose proof (count_le_count _ _ (href_values soup) (ip_based_has_netloc w)) as Hle.
  pose proof (count_le_length (has_netloc w) (href_values soup)) as Hlen.
  repeat split; lia.
Qed.

Lemma link_counters_bounds_witness :
  let c := mkLinkCounts 2 1 2 2 1 1 in
  extract_link_features Offline.net Scenario.ip_links_page "site.com"
  = inr (link_counts_values c)
  /\ ip_based_count c
     = count (is_ip_based_link Offline.net) (href_values Scenario.ip_links_page)
  /\ ip_based_count c <= external_count c + internal_count c
  /\ external_count c + internal_count c
     <= length (href_values Scenario.ip_links_page).
Proof.
  split; [reflexivity |].
  apply (link_counters_bounds Offline.net Scenario.ip_links_page "site.com"
           (mkLinkCounts 2 1 2 2 1 1) eq_refl).
Defined.

Lemma contains_empty (s : string) : Py.contains "" s = true.
Proof. destruct s; reflexivity. Qed.

(** X4. With the empty string as reference domain every link that has a
    network location counts as internal and none as external, since the
    empty string occurs in every network location. *)
Theorem empty_domain_all_internal (w : Collaborators) (soup : Bs4.Soup) (c : LinkCounts) :
  extract_link_features w soup "" = inr (link_counts_values c) ->
  external_count c = 0
  /\ internal_count c = count (has_netloc w) (href_values soup).
Proof.
  intros Hres.
  destruct (external_internal_partition_cases w soup "" c Hres) as (He & Hi & Hsum).
  assert (count (is_external_link w "") (href_values soup) = 0) as H0.
  { apply count_none. intros link _. unfold is_external_link.
    destruct (urlparse w link) as [e | p]; [reflexivity |].
    rewrite contains_empty. apply andb_false_r. }
  lia.
Qed.

Lemma empty_domain_all_internal_witness :
  let c := mkLinkCounts 0 3 2 2 1 1 in
  extract_link_features Offline.net Scenario.ip_links_page ""
  = inr (link_counts_values c)
  /\ external_count c = 0
  /\ internal_count c
     = count (has_netloc Offline.net) (href_values Scenario.ip_links_page).
Proof.
  split; [reflexivity |].
  apply (empty_domain_all_internal Offline.net Scenario.ip_links_page
           (mkLinkCounts 0 3 2 2 1 1) eq_refl).
Defined.

(** ** Iframes and the placeholder *)

Lemma count_external_with_placeholder (w : Collaborators) (iframes : list Bs4.Tag) :
  Forall (fun f => Py.contains self_domain (Bs4.get_default f "src" "") = true) iframes ->
  count (is_external_iframe w) iframes = 0.
Proof.
  unfold count. induction 1 as [| f rest Hf _ IH]; [reflexivity |].
  cbn [filter]. unfold is_external_iframe at 1. rewrite Hf.
  rewrite andb_false_r. exact IH.
Qed.

(** X5. The placeholder is looked for in the whole [src], not in its
    network location: when every iframe's [src] contains it somewhere,
    be it in the path or the query of another site's URL, no iframe is
    counted as external, while the hidden counter is not affected. *)
Theorem placeholder_anywhere_in_src_not_external (w : Collaborators) (soup : Bs4.Soup) :
  Forall (fun f => Py.contains self_domain (Bs4.get_default f "src" "") = true)
         (Bs4.find_all "iframe" soup) ->
  extract_iframes w soup
  = inr (VCount 0, VCount (count is_hidden_iframe (Bs4.find_all "iframe" soup)))
  \/ extract_iframes w soup = inr (Error, Error).
Proof.
  intros Hall. unfold extract_iframes.
  destruct (for_in (iframe_step w) (Bs4.find_all "iframe" soup) (mkIframeCounts 0 0))
    as [e | c] eqn:E; [right; reflexivity | left].
  destruct (iframe_loop_counts _ _ _ _ E) as (He & Hh).
  cbn in He, Hh. cbn [bind ret Monad_either try_except catch Exception_either].
  rewrite He, Hh, (count_external_with_placeholder w _ Hall). reflexivity.
Qed.

Lemma placeholder_anywhere_in_src_not_external_witness :
  extract_iframes Offline.net Scenario.redirect_iframes_page = inr (VInt 0, VInt 1)
  /\ map (fun f => has_netloc Offline.net (Bs4.get_default f "src" ""))
         (Bs4.find_all "iframe" Scenario.redirect_iframes_page)
     = [true; true].
Proof.
  split; [| reflexivity].
  destruct (placeholder_anywhere_in_src_not_external Offline.net
              Scenario.redirect_iframes_page) as [H | H].
  - repeat constructor.
  - exact H.
  - discriminate H.
Defined.

(** ** What a row depends on *)

Lemma get_row_identity (w : Collaborators) (url http_url : string) (row : Row) :
  get_row w url http_url = inr row ->
  URL row = url
  /\ exists parsed, urlparse w http_url = inr parsed /\ Domain row = Urllib.netloc parsed.
Proof.
  intros H. unfold get_row in H. bind_inv H.
  inversion H; subst; clear H. cbn [URL Domain].
  split; [reflexivity |]. eexists. split; [eassumption | reflexivity].
Qed.

(** X6. Name resolution touches one field only: with another resolver,
    whether it answers or fails, [get_row] returns the same row but for
    ["IP Address"], which holds what [extract_ip_address] gives with
    that resolver for the row's domain. *)
Theorem resolver_changes_ip_address_only (w : Collaborators)
    (resolve : string -> res string) (url http_url : string) (row : Row) :
  get_row w url http_url = inr row ->
  exists ip,
    extract_ip_address (with_resolver w resolve) (Domain row) = inr ip
    /\ get_row (with_resolver w resolve) url http_url = inr (set_IP_Address row ip).
Proof.
  intros H. unfold get_row in H. bind_inv H.
  inversion H; subst; clear H. cbn [Domain].
  match goal with
  | Hu : urlparse w http_url = inr ?p |- _ =>
      destruct (extract_ip_address_returns (with_resolver w resolve) (Urllib.netloc p))
        as (ip & Hip)
  end.
  exists ip. split; [exact Hip |].
  unfold get_row.
  change (requests_get (with_resolver w resolve)) with (requests_get w).
  change (BeautifulSoup (with_resolver w resolve)) with (BeautifulSoup w).
  change (urlparse (with_resolver w resolve)) with (urlparse w).
  change (extract_link_features (with_resolver w resolve))
    with (extract_link_features w).
  change (extract_iframes (with_resolver w resolve)) with (extract_iframes w).
  change (extract_certificate (with_resolver w resolve)) with (extract_certificate w).
  change (extract_whois (with_resolver w resolve)) with (extract_whois w).
  repeat match goal with
    | E : ?c = inr _ |- context [?c] => rewrite E; cbn [bind Monad_either]
    end.
  reflexivity.
Qed.

Lemma resolver_changes_ip_address_only_witness :
  exists row,
    get_row Offline.net "example.com" "http://example.com" = inr row
    /\ IP_Address row = Error
    /\ get_row (with_resolver Offline.net (fun _ => inr "93.184.216.34"))
         "example.com" "http://example.com"
       = inr (set_IP_Address row (VStr "93.184.216.34")).
Proof.
  eexists. split; [reflexivity |]. split; [reflexivity |].
  destruct (resolver_changes_ip_address_only Offline.net
              (fun _ => inr "93.184.216.34") "example.com" "http://example.com"
              _ eq_refl) as (ip & Hip & Hrow).
  cbn in Hip. inversion Hip; subst ip. exact Hrow.
Defined.

Lemma for_in_ext {A S} (body1 body2 : A -> S -> res S) (xs : list A) :
  (forall x s, body1 x s = body2 x s) ->
  forall s, for_in body1 xs s = for_in body2 xs s.
Proof.
  intros Hext. induction xs as [| x xs IH]; intros s; [reflexivity |].
  cbn [for_in]. rewrite Hext. destruct (body2 x s) as [e | s']; [reflexivity |].
  cbn [bind Monad_either]. apply IH.
Qed.

Lemma extract_link_features_ext (w1 w2 : Collaborators) (soup : Bs4.Soup) (domain : string) :
  (forall u, urlparse w1 u = urlparse w2 u) ->
  extract_link_features w1 soup domain = extract_link_features w2 soup domain.
Proof.
  intros Hu. unfold extract_link_features.
  destruct (hrefs_of (Bs4.find_all_with "a" "href" soup)) as [e | links];
    [reflexivity |].
  cbn [bind Monad_either].
  rewrite (for_in_ext (link_step w1 domain) (link_step w2 domain)); [reflexivity |].
  intros link c. unfold link_step. now rewrite Hu.
Qed.

Lemma extract_iframes_ext (w1 w2 : Collaborators) (soup : Bs4.Soup) :
  (forall u, urlparse w1 u = urlparse w2 u) ->
  extract_iframes w1 soup = extract_iframes w2 soup.
Proof.
  intros Hu. unfold extract_iframes.
  rewrite (for_in_ext (iframe_step w1) (iframe_step w2)); [reflexivity |].
  intros f c. unfold iframe_step. now rewrite Hu.
Qed.

(** X7. The fields read off the page (link density, the six link
    counters, the two iframe counters) and the identity fields (URL,
    domain, HTTPS flag) depend on the page fetch, the HTML parser and
    the URL splitter only: two settings that agree on these three and
    differ in name resolution, TLS or WHOIS give rows that agree on all
    twelve fields. *)
Theorem page_fields_ignore_probes (w1 w2 : Collaborators) (url http_url : string)
    (row1 row2 : Row) :
  (forall u t, requests_get w1 u t = requests_get w2 u t) ->
  (forall m p, BeautifulSoup w1 m p = BeautifulSoup w2 m p) ->
  (forall u, urlparse w1 u = urlparse w2 u) ->
  get_row w1 url http_url = inr row1 ->
  get_row w2 url http_url = inr row2 ->
  URL row1 = URL row2 /\ Domain row1 = Domain row2
  /\ If_HTTPS row1 = If_HTTPS row2
  /\ Link_Density row1 = Link_Density row2
  /\ External_Links_Count row1 = External_Links_Count row2
  /\ Internal_Links_Count row1 = Internal_Links_Count row2
  /\ External_IP_Count row1 = External_IP_Count row2
  /\ HTTPS_Count row1 = HTTPS_Count row2
  /\ HTTP_Count row1 = HTTP_Count row2
  /\ Non_Count row1 = Non_Count row2
  /\ External_Iframes_Count row1 = External_Iframes_Count row2
  /\ Hidden_Iframes_Count row1 = Hidden_Iframes_Count row2.
Proof.
  intros Hg Hb Hu H1 H2. unfold get_row in H1, H2.
  rewrite <- Hg in H2.
  apply res_bind_inv in H1 as (page & Hpage & H1).
  rewrite Hpage in H2. cbn [bind Monad_either] in H2.
  rewrite <- Hb in H2.
  apply res_bind_inv in H1 as (soup & Hsoup & H1).
  rewrite Hsoup in H2. cbn [bind Monad_either] in H2.
  rewrite <- Hu in H2.
  apply res_bind_inv in H1 as (parsed & Hparsed & H1).
  rewrite Hparsed in H2. cbn [bind Monad_either] in H2.
  rewrite <- (extract_link_features_ext w1 w2 soup _ Hu) in H2.
  rewrite <- (extract_iframes_ext w1 w2 soup Hu) in H2.
  apply res_bind_inv in H1 as (ip1 & _ & H1).
  apply res_bind_inv in H2 as (ip2 & _ & H2).
  apply res_bind_inv in H1 as (ld & Hld & H1).
  rewrite Hld in H2. cbn [bind Monad_either] in H2.
  apply res_bind_inv in H1 as (lf & Hlf & H1).
  rewrite Hlf in H2. cbn [bind Monad_either] in H2.
  destruct lf as [[[[[? ?] ?] ?] ?] ?].
  apply res_bind_inv in H1 as (fr & Hfr & H1).
  rewrite Hfr in H2. cbn [bind Monad_either] in H2.
  destruct fr as [? ?].
  bind_inv H1. bind_inv H2.
  inversion H1; subst; clear H1. inversion H2; subst; clear H2.
  cbn. repeat split; try congruence.
  match goal with E : extract_if_https url = inr _ |- _ =>
    unfold extract_if_https in E; cbn in E; congruence end.
Qed.

Lemma page_fields_ignore_probes_witness :
  exists row1 row2,
    get_row Offline.net "example.com" "http://example.com" = inr row1
    /\ get_row (Offline.tls_world (Some Offline.full_certificate))
         "example.com" "http://example.com" = inr row2
    /\ Country row1 <> Country row2
    /\ Link_Density row1 = Link_Density row2
    /\ HTTPS_Count row1 = HTTPS_Count row2.
Proof.
  do 2 eexists. split; [reflexivity |]. split; [reflexivity |].
  split; [discriminate |].
  pose proof (page_fields_ignore_probes Offline.net
                (Offline.tls_world (Some Offline.full_certificate))
                "example.com" "http://example.com" _ _
                (fun _ _ => eq_refl) (fun _ _ => eq_refl) (fun _ => eq_refl)
                eq_refl eq_refl) as H.
  split; apply H.
Defined.

(** ** The batch as a whole *)

Lemma Subsequence_length {A} (l1 l2 : list A) :
  Subsequence l1 l2 -> length l1 <= length l2.
Proof. induction 1; cbn [length]; lia. Qed.

Lemma Subsequence_In {A} (l1 l2 : list A) (x : A) :
  Subsequence l1 l2 -> In x l1 -> In x l2.
Proof.
  induction 1 as [| y l1 l2 _ IH | y l1 l2 _ IH]; intros Hx.
  - exact Hx.
  - right. now apply IH.
  - destruct Hx as [-> | Hx]; [now left | right; now apply IH].
Qed.

(** What one turn of the loop does to the table and to the output,
    whenever it ends normally. *)
Lemma dataset_step_cases {R} (w : Collaborators) (row_builder : string -> string -> res R)
    (url : string) (st st' : Locals R) :
  dataset_step w row_builder url st = inr st' ->
  exists line,
    stdout st' = (stdout st ++ [line])%list
    /\ ((exists target row,
           row_builder url target = inr row
           /\ df st' = (df st ++ [row])%list
           /\ Py.startswith line "Successfully Added:" = true)
        \/ (df st' = df st /\ Py.startswith line "Successfully Added:" = false)).
Proof.
  unfold dataset_step. intros H.
  apply res_bind_inv in H as (h & _ & H).
  destruct h as [target |]; cbn [read_local bind ret Monad_either] in H.
  2: { cbn in H. discriminate H. }
  - destruct (row_builder url target) as [e | row] eqn:Hrow.
    + destruct (is_Timeout e);
        [| destruct (is_RequestException e); [| discriminate]];
        inversion H; subst; clear H; cbn [df stdout];
        eexists; (split; [reflexivity |]); right; split; reflexivity.
    + inversion H; subst; clear H. cbn [df stdout].
      eexists. split; [reflexivity |]. left. exists target, row.
      split; [exact Hrow | split; reflexivity].
Qed.

Lemma dataset_loop_rows (w : Collaborators) (urls : list string) :
  forall st st' : Locals Row,
    dataset_loop w (get_row w) urls st = inr st' ->
    exists added,
      df st' = (df st ++ added)%list /\ Subsequence (map URL added) urls.
Proof.
  unfold dataset_loop.
  induction urls as [| url rest IH]; intros st st' H; cbn [for_in] in H.
  - inversion H; subst. exists []. split; [now rewrite app_nil_r | constructor].
  - apply res_bind_inv in H as (st1 & Hstep & H).
    destruct (IH _ _ H) as (added & Hdf & Hsub).
    destruct (dataset_step_cases _ _ _ _ _ Hstep)
      as (line & _ & [(target & row & Hrow & Hdf1 & _) | (Hdf1 & _)]).
    + exists (row :: added). rewrite Hdf, Hdf1, <- app_assoc. split; [reflexivity |].
      cbn [map]. destruct (get_row_identity _ _ _ _ Hrow) as (-> & _).
      now constructor.
    + exists added. rewrite Hdf, Hdf1. split; [reflexivity | now constructor].
Qed.

(** X8. The table [create_dataset] returns holds at most one row per
    input URL, in input order: the URLs of its rows are the input list
    with some URLs left out. *)
Theorem dataset_rows_follow_input (w : Collaborators) (urls : list string) (rows : list Row) :
  create_dataset w urls = inr rows ->
  Subsequence (map URL rows) urls /\ length rows <= length urls.
Proof.
  unfold create_dataset, create_dataset_with. intros H.
  apply res_bind_inv in H as (st & Hloop & H). inversion H; subst; clear H.
  destruct (dataset_loop_rows _ _ _ _ Hloop) as (added & Hdf & Hsub).
  cbn [df app] in Hdf. rewrite Hdf. split; [exact Hsub |].
  rewrite <- (length_map URL). now apply Subsequence_length.
Qed.

Lemma dataset_rows_follow_input_witness :
  exists rows,
    create_dataset Offline.net ["example.com"; "gone.test"; "example.org"] = inr rows
    /\ map URL rows = ["example.com"; "example.org"]
    /\ Subsequence (map URL rows) ["example.com"; "gone.test"; "example.org"].
Proof.
  eexists. split; [reflexivity |]. split; [reflexivity |].
  apply (dataset_rows_follow_input Offline.net
           ["example.com"; "gone.test"; "example.org"] _ eq_refl).
Defined.

Lemma assign_http_url_no_scheme (w : Collaborators) (url : string) (held : option string) :
  no_scheme w url = true ->
  assign_http_url w url held = inr (Some ("http://" ++ url)).
Proof.
  unfold no_scheme, assign_http_url.
  destruct (urlparse w url) as [e | p]; [discriminate |].
  intros H. cbn [bind ret Monad_either]. now rewrite H.
Qed.

Lemma scheme_less_loop {R} (w : Collaborators) (row_builder : string -> string -> res R)
    (urls : list string) :
  Forall (fun url => no_scheme w url = true) urls ->
  Forall (fun url => forall e, row_builder url ("http://" ++ url) = inl e ->
                               is_RequestException e = true) urls ->
  forall st, exists st',
    dataset_loop w row_builder urls st = inr st'
    /\ df st' = (df st ++ rows_built row_builder urls)%list.
Proof.
  unfold dataset_loop.
  induction urls as [| url rest IH]; intros Hs Hr st.
  - exists st. split; [reflexivity | now rewrite app_nil_r].
  - inversion Hs as [| ? ? Hs1 Hs2]; subst. inversion Hr as [| ? ? Hr1 Hr2]; subst.
    cbn [for_in rows_built flat_map]. unfold dataset_step.
    rewrite (assign_http_url_no_scheme _ _ _ Hs1).
    cbn [bind Monad_either read_local ret].
    destruct (row_builder url ("http://" ++ url)) as [e | row] eqn:Hrow.
    + specialize (Hr1 e eq_refl).
      destruct (is_Timeout e); [| rewrite Hr1]; cbn [bind Monad_either ret];
        match goal with |- context [for_in _ rest ?s] =>
          destruct (IH Hs2 Hr2 s) as (st' & Hloop & Hdf) end;
        exists st'; (split; [exact Hloop | exact Hdf]).
    + cbn [bind Monad_either ret].
      match goal with |- context [for_in _ rest ?s] =>
        destruct (IH Hs2 Hr2 s) as (st' & Hloop & Hdf) end.
      exists st'. split; [exact Hloop |].
      rewrite Hdf. cbn [df]. now rewrite <- app_assoc.
Qed.

(** X9. For a batch in which no URL carries a scheme, and whose row
    builder fails with request errors only, [create_dataset] returns
    and its table is made of the rows built for [http://] followed by
    each URL, one for each URL that could be built and none for the
    others, in input order. *)
Theorem scheme_less_batch_rows {R} (w : Collaborators)
    (row_builder : string -> string -> res R) (urls : list string) :
  Forall (fun url => no_scheme w url = true) urls ->
  Forall (fun url => forall e, row_builder url ("http://" ++ url) = inl e ->
                               is_RequestException e = true) urls ->
  create_dataset_with w row_builder urls = inr (rows_built row_builder urls).
Proof.
  intros Hs Hr. unfold create_dataset_with.
  destruct (scheme_less_loop w row_builder urls Hs Hr (mkLocals [] None []))
    as (st' & Hloop & Hdf).
  rewrite Hloop. cbn [bind Monad_either ret]. now rewrite Hdf.
Qed.

Lemma scheme_less_batch_rows_witness :
  create_dataset_with Offline.net (get_row Offline.net)
    ["example.com"; "gone.test"; "example.org"]
  = inr (rows_built (get_row Offline.net) ["example.com"; "gone.test"; "example.org"])
  /\ length (rows_built (get_row Offline.net)
               ["example.com"; "gone.test"; "example.org"]) = 2.
Proof.
  split; [| reflexivity].
  apply (scheme_less_batch_rows Offline.net (get_row Offline.net)
           ["example.com"; "gone.test"; "example.org"]).
  - repeat constructor.
  - repeat constructor; intros e H; vm_compute in H;
      first [discriminate H | inversion H; reflexivity].
Defined.

Lemma create_dataset_with_state {R} (w : Collaborators)
    (row_builder : string -> string -> res R) (urls : list string) (rows : list R) :
  create_dataset_with w row_builder urls = inr rows ->
  exists st, dataset_loop w row_builder urls (mkLocals [] None []) = inr st
             /\ df st = rows.
Proof.
  unfold create_dataset_with. intros H.
  apply res_bind_inv in H as (st & Hloop & H). inversion H; subst.
  exists st. split; [exact Hloop | reflexivity].
Qed.

Lemma create_dataset_with_abort {R} (w : Collaborators)
    (row_builder : string -> string -> res R) (before after : list string)
    (url : string) (st : Locals R) (e : exn) :
  dataset_loop w row_builder before (mkLocals [] None []) = inr st ->
  dataset_step w row_builder url st = inl e ->
  create_dataset_with w row_builder (before ++ url :: after) = inl e.
Proof.
  intros Hloop Hstep. unfold create_dataset_with, dataset_loop in *.
  rewrite (for_in_app _ _ (url :: after) _ _ Hloop).
  cbn [for_in]. rewrite Hstep. reflexivity.
Qed.

(** X10. The scheme test of line 288 is outside the [try]: when an input
    URL cannot be split, the error leaves [create_dataset], the URLs
    after it are not processed and the rows built before it are not
    returned. *)
Theorem unsplittable_url_aborts_batch {R} (w : Collaborators)
    (row_builder : string -> string -> res R) (before after : list string)
    (url : string) (rows : list R) (e : exn) :
  create_dataset_with w row_builder before = inr rows ->
  urlparse w url = inl e ->
  create_dataset_with w row_builder (before ++ url :: after) = inl e.
Proof.
  intros Hbefore Hurl.
  destruct (create_dataset_with_state _ _ _ _ Hbefore) as (st & Hloop & _).
  apply (create_dataset_with_abort w row_builder before after url st e Hloop).
  unfold dataset_step, assign_http_url. rewrite Hurl. reflexivity.
Qed.

Lemma unsplittable_url_aborts_batch_witness :
  (exists row, create_dataset Offline.net ["example.com"] = inr [row])
  /\ create_dataset Offline.net (["example.com"] ++ "http://[::1/" :: ["example.org"])
     = inl ValueError.
Proof.
  split; [eexists; reflexivity |].
  apply (unsplittable_url_aborts_batch Offline.net (get_row Offline.net)
           ["example.com"] ["example.org"] "http://[::1/" _ ValueError
           eq_refl eq_refl).
Defined.

(** X11. Only request errors are handled in the loop: when the row
    builder raises anything else for a URL without scheme (here, an
    error of the HTML parser), that error leaves [create_dataset], the
    URLs after it are not processed and the rows built before it are not
    returned. *)
Theorem other_error_aborts_batch {R} (w : Collaborators)
    (row_builder : string -> string -> res R) (before after : list string)
    (url : string) (rows : list R) (e : exn) :
  create_dataset_with w row_builder before = inr rows ->
  no_scheme w url = true ->
  row_builder url ("http://" ++ url) = inl e ->
  is_RequestException e = false ->
  create_dataset_with w row_builder (before ++ url :: after) = inl e.
Proof.
  intros Hbefore Hscheme Hrow Hother.
  destruct (create_dataset_with_state _ _ _ _ Hbefore) as (st & Hloop & _).
  apply (create_dataset_with_abort w row_builder before after url st e Hloop).
  unfold dataset_step. rewrite (assign_http_url_no_scheme _ _ _ Hscheme).
  cbn [bind Monad_either read_local ret]. rewrite Hrow.
  destruct e; cbn in Hother |- *; try discriminate; reflexivity.
Qed.

Lemma other_error_aborts_batch_witness :
  (exists row,
      create_dataset Scenario.strict_net ["example.com"; "gone.test"] = inr [row])
  /\ create_dataset Scenario.strict_net
       (["example.com"; "gone.test"] ++ "broken.example" :: ["example.net"])
     = inl (OtherException "ParserRejectedMarkup" "expected name token").
Proof.
  split; [eexists; reflexivity |].
  apply (other_error_aborts_batch Scenario.strict_net (get_row Scenario.strict_net)
           ["example.com"; "gone.test"] ["example.net"] "broken.example" _
           (OtherException "ParserRejectedMarkup" "expected name token")
           eq_refl eq_refl eq_refl eq_refl).
Defined.

(** X12. A run of the loop that ends normally has called [print]
    exactly once for every URL, and as many of the printed texts start
    with [Successfully Added:] as rows were added to the table.  (A
    text is what one call prints; a URL that holds a line break makes
    its text span several lines of output.) *)
Theorem one_print_per_url {R} (w : Collaborators)
    (row_builder : string -> string -> res R) (urls : list string)
    (st st' : Locals R) :
  dataset_loop w row_builder urls st = inr st' ->
  exists texts,
    stdout st' = (stdout st ++ texts)%list
    /\ length texts = length urls
    /\ length (df st')
       = length (df st)
         + count (fun text => Py.startswith text "Successfully Added:") texts.
Proof.
  unfold dataset_loop. revert st.
  induction urls as [| url rest IH]; intros st H; cbn [for_in] in H.
  - inversion H; subst. exists []. rewrite app_nil_r. cbn. repeat split; lia.
  - apply res_bind_inv in H as (st1 & Hstep & H).
    destruct (IH _ H) as (texts & Hout & Hlen & Hdf).
    destruct (dataset_step_cases _ _ _ _ _ Hstep)
      as (text & Hout1 & [(target & row & _ & Hdf1 & Htext) | (Hdf1 & Htext)]);
      exists (text :: texts); rewrite Hout, Hout1, <- app_assoc;
      (split; [reflexivity |]); (split; [cbn [length]; lia |]);
      unfold count in *; cbn [filter]; rewrite Htext, Hdf, Hdf1;
      [rewrite length_app |]; cbn [length]; lia.
Qed.

Lemma one_print_per_url_witness :
  exists st',
    dataset_loop Offline.net (get_row Offline.net)
      ["example.com"; "gone.test"; "example.org"] (mkLocals [] None []) = inr st'
    /\ stdout st'
       = ["Successfully Added:  example.com";
          "Failed to fetch gone.test: Max retries exceeded";
          "Successfully Added:  example.org"]
    /\ exists texts,
         stdout st' = texts
         /\ length texts = 3
         /\ length (df st')
            = 0 + count (fun text => Py.startswith text "Successfully Added:") texts.
Proof.
  eexists. split; [reflexivity |]. split; [reflexivity |].
  apply (one_print_per_url Offline.net (get_row Offline.net)
           ["example.com"; "gone.test"; "example.org"]
           (mkLocals [] None []) _ eq_refl).
Defined.

(** ** The table that is written *)

Lemma create_dataset_urls (w : Collaborators) (urls : list string) (rows : list Row) :
  create_dataset w urls = inr rows ->
  forall row, In row rows -> In (URL row) urls.
Proof.
  intros H row Hrow.
  destruct (create_dataset_with_state _ _ _ _ H) as (st & Hloop & Hdf).
  destruct (dataset_loop_rows _ _ _ _ Hloop) as (added & Hadd & Hsub).
  cbn [df app] in Hadd. rewrite Hadd in Hdf. subst rows.
  eapply Subsequence_In; [exact Hsub | now apply in_map].
Qed.

Lemma unique_from_In (seen xs : list string) (x : string) :
  In x (unique_from seen xs) -> In x xs.
Proof.
  revert seen. induction xs as [| y ys IH]; intros seen H; cbn [unique_from] in H.
  - exact H.
  - destruct (existsb (String.eqb y) seen).
    + right. eapply IH; eauto.
    + destruct H as [-> | H]; [now left | right; eapply IH; eauto].
Qed.

Lemma firstn_In_inv {A} (n : nat) (l : list A) (x : A) : In x (firstn n l) -> In x l.
Proof.
  intros H. rewrite <- (firstn_skipn n l). apply in_or_app. now left.
Qed.

(** The rows of a left join that returned. *)
Lemma merge_left_rows (left : list Row) (right : list (string * string))
    (merged : list (Row * option string)) (r : Row * option string) :
  merge_left left right = inr merged ->
  In r merged ->
  exists x, In x left
    /\ In r (match filter (fun l => String.eqb (fst l) (URL x)) right with
             | [] => [(x, None)]
             | ms => map (fun l => (x, Some (snd l))) ms
             end).
Proof.
  unfold merge_left. intros Hm Hr.
  assert (merged = flat_map
            (fun x => match filter (fun l => String.eqb (fst l) (URL x)) right with
                      | [] => [(x, None)]
                      | ms => map (fun l => (x, Some (snd l))) ms
                      end) left) as ->.
  { destruct left; [discriminate |]. now inversion Hm. }
  now apply in_flat_map in Hr.
Qed.

(** A row of a left join whose URL occurs on the right carries the
    label of a right row with that URL. *)
Lemma merge_left_label (left : list Row) (right : list (string * string))
    (merged : list (Row * option string)) (r : Row * option string) :
  merge_left left right = inr merged ->
  (forall x, In x left -> In (URL x) (map fst right)) ->
  In r merged ->
  In (fst r) left /\ exists t, snd r = Some t /\ In (URL (fst r), t) right.
Proof.
  intros Hm Hkeys Hr.
  destruct (merge_left_rows _ _ _ _ Hm Hr) as (x & Hx & Hrx). clear Hr.
  rename Hrx into Hr.
  destruct (filter (fun l => String.eqb (fst l) (URL x)) right) as [| m ms] eqn:Hf.
  - exfalso. apply Hkeys in Hx. apply in_map_iff in Hx as (l & Hl & Hin).
    assert (In l (filter (fun l => String.eqb (fst l) (URL x)) right)) as Hc.
    { apply filter_In. split; [exact Hin |]. rewrite Hl. apply String.eqb_refl. }
    rewrite Hf in Hc. exact Hc.
  - apply in_map_iff in Hr as (l & <- & Hl). cbn [fst snd].
    split; [exact Hx |]. exists (snd l). split; [reflexivity |].
    rewrite <- Hf in Hl. apply filter_In in Hl as (Hin & Heq).
    apply String.eqb_eq in Heq. rewrite <- Heq.
    now rewrite <- surjective_pairing.
Qed.

(** Every label of a left join is the label of a right row. *)
Lemma merge_left_labels (left : list Row) (right : list (string * string))
    (merged : list (Row * option string)) (r : Row * option string) (t : string) :
  merge_left left right = inr merged ->
  In r merged -> snd r = Some t -> In t (map snd right).
Proof.
  intros Hm Hr Ht.
  destruct (merge_left_rows _ _ _ _ Hm Hr) as (x & Hx & Hrx). clear Hr.
  rename Hrx into Hr.
  destruct (filter (fun l => String.eqb (fst l) (URL x)) right) as [| m ms] eqn:Hf.
  - destruct Hr as [<- | []]. discriminate.
  - apply in_map_iff in Hr as (l & <- & Hl). cbn [snd] in Ht. inversion Ht; subst.
    rewrite <- Hf in Hl. apply filter_In in Hl as (Hin & _). now apply in_map.
Qed.

Lemma class_labels (table : list (string * string)) (class t : string) :
  In t (map snd (filter (fun r => String.eqb (snd r) class) table)) -> t = class.
Proof.
  intros H. apply in_map_iff in H as (l & <- & Hl).
  apply filter_In in Hl as (_ & Heq). now apply String.eqb_eq.
Qed.

(** The rows of one class after its join, in [main]. *)
Lemma class_rows_labelled (w : Collaborators) (table : list (string * string))
    (class : string) (n : nat) (data : list Row)
    (merged : list (Row * option string)) (r : Row * option string) :
  let df_class := filter (fun r => String.eqb (snd r) class) table in
  create_dataset w (unique (map fst (firstn n df_class))) = inr data ->
  merge_left data df_class = inr merged ->
  In r merged ->
  snd r = Some class /\ In (URL (fst r), class) table.
Proof.
  intros df_class Hdata Hmerge Hr.
  destruct (merge_left_label data df_class merged r Hmerge) as (_ & t & Ht & Hin);
    [| exact Hr |].
  - intros x Hx. pose proof (create_dataset_urls _ _ _ Hdata x Hx) as Hu.
    apply unique_from_In in Hu. apply in_map_iff in Hu as (l & Hl & Hin).
    apply firstn_In_inv in Hin. apply in_map_iff. now exists l.
  - assert (t = class) as ->.
    { apply (class_labels table). change t with (snd (URL (fst r), t)).
      now apply in_map. }
    split; [exact Ht |]. unfold df_class in Hin. now apply filter_In in Hin.
Qed.

Lemma main_steps (w : Collaborators) (final : list (Row * option string)) :
  main w = inr final ->
  exists table phishing_data benign_data p b,
    read_csv w "malicious_phish.csv" = inr table
    /\ create_dataset w
         (unique (map fst (firstn 2000
            (filter (fun r => String.eqb (snd r) "phishing") table))))
       = inr phishing_data
    /\ create_dataset w
         (unique (map fst (firstn 1000
            (filter (fun r => String.eqb (snd r) "benign") table))))
       = inr benign_data
    /\ merge_left phishing_data
         (filter (fun r => String.eqb (snd r) "phishing") table) = inr p
    /\ merge_left benign_data
         (filter (fun r => String.eqb (snd r) "benign") table) = inr b
    /\ final = sample w (firstn 400 p ++ b)%list.
Proof.
  unfold main. intros H.
  apply res_bind_inv in H as (table & Ht & H).
  apply res_bind_inv in H as (ph & Hph & H).
  apply res_bind_inv in H as (bn & Hbn & H).
  unfold curate in H.
  apply res_bind_inv in H as (p & Hp & H).
  apply res_bind_inv in H as (b & Hb & H).
  cbv zeta in H. rewrite firstn_firstn_same in H.
  exists table, ph, bn, p, b. repeat split; try assumption.
  cbn [ret Monad_either] in H. congruence.
Qed.

(** X13. Every row [main] writes carries a label, the label is
    ["phishing"] or ["benign"], and the source file has a row with that
    URL and that label; this holds as soon as sampling returns rows of
    the table it is given. *)
Theorem written_rows_labelled_from_source (w : Collaborators)
    (table : list (string * string)) (final : list (Row * option string)) :
  (forall (A : Type) (l : list A) (x : A), In x (sample w l) -> In x l) ->
  read_csv w "malicious_phish.csv" = inr table ->
  main w = inr final ->
  Forall (fun r => exists t,
            snd r = Some t /\ (t = "phishing" \/ t = "benign")
            /\ In (URL (fst r), t) table) final.
Proof.
  intros Hsample Htable Hmain.
  destruct (main_steps w final Hmain)
    as (table' & ph & bn & p & b & Ht & Hph & Hbn & Hp & Hb & ->).
  rewrite Htable in Ht. inversion Ht; subst table'; clear Ht.
  apply Forall_forall. intros r Hr. apply Hsample in Hr.
  apply in_app_or in Hr as [Hr | Hr].
  - apply firstn_In_inv in Hr.
    destruct (class_rows_labelled w table "phishing" 2000 ph p r Hph Hp Hr) as (Hl & Hin).
    exists "phishing". auto.
  - destruct (class_rows_labelled w table "benign" 1000 bn b r Hbn Hb Hr) as (Hl & Hin).
    exists "benign". auto.
Qed.

Lemma written_rows_labelled_from_source_witness :
  exists final,
    main (Scenario.csv_world Scenario.small_table) = inr final
    /\ map (fun r => (URL (fst r), snd r)) final
       = [("shop.example", Some "benign"); ("news.example", Some "benign");
          ("news.example", Some "benign"); ("login.example", Some "phishing")]
    /\ Forall (fun r => exists t,
                 snd r = Some t /\ (t = "phishing" \/ t = "benign")
                 /\ In (URL (fst r), t) Scenario.small_table) final.
Proof.
  eexists. split; [reflexivity |]. split; [reflexivity |].
  apply (written_rows_labelled_from_source
           (Scenario.csv_world Scenario.small_table) Scenario.small_table _
           (fun A l x H => proj2 (in_rev l x) H) eq_refl eq_refl).
Defined.

Lemma count_Permutation {A} (f : A -> bool) (l l' : list A) :
  Permutation l l' -> count f l = count f l'.
Proof.
  unfold count. induction 1 as [| x l l' _ IH | x y l | l l' l'' _ IH1 _ IH2];
    cbn [filter].
  - reflexivity.
  - destruct (f x); cbn [length]; lia.
  - destruct (f x), (f y); reflexivity.
  - lia.
Qed.

Lemma count_app {A} (f : A -> bool) (l l' : list A) :
  count f (l ++ l') = count f l + count f l'.
Proof. unfold count. now rewrite filter_app, length_app. Qed.

(** X14. The table [main] writes holds at most 400 rows labelled
    ["phishing"], whatever the number of phishing pages fetched, as soon
    as sampling permutes the table it is given. *)
Theorem phishing_rows_capped (w : Collaborators) (final : list (Row * option string)) :
  (forall (A : Type) (l : list A), Permutation l (sample w l)) ->
  main w = inr final ->
  count labelled_phishing final <= 400.
Proof.
  intros Hperm Hmain.
  destruct (main_steps w final Hmain)
    as (table & ph & bn & p & b & Ht & Hph & Hbn & Hp & Hb & ->).
  rewrite <- (count_Permutation labelled_phishing _ _ (Hperm _ _)), count_app.
  rewrite (count_none labelled_phishing b).
  - pose proof (count_le_length labelled_phishing (firstn 400 p)) as H1.
    pose proof (firstn_le_length 400 p) as H2. lia.
  - intros r Hr. unfold labelled_phishing.
    destruct (snd r) as [t |] eqn:Hl; [| reflexivity].
    pose proof (merge_left_labels _ _ _ r t Hb Hr Hl) as Hin.
    apply class_labels in Hin. now subst t.
Qed.

Lemma phishing_rows_capped_witness :
  exists final,
    main (Scenario.csv_world Scenario.small_table) = inr final
    /\ count labelled_phishing final <= 400.
Proof.
  eexists. split; [reflexivity |].
  apply (phishing_rows_capped (Scenario.csv_world Scenario.small_table) _
           (fun A l => Permutation_rev l) eq_refl).
Defined.
